(** * wkhtmltopdf_log: the [_run_wkhtmltopdf] override of [ir.actions.report]

    A shallow embedding of [wkhtmltopdf_log/models/ir_actions_report.py].
    The Python method stages HTML as temporary files, runs the external
    renderer, branches on its exit code, reads the produced PDF back and
    unlinks the temporary files.

    The method is embedded as a computation in a state-and-exception monad
    over a [World]: the file system, the set of paths the operating system
    refuses to unlink, the records emitted through [_logger] and the system
    calls made so far.  Everything the method obtains from outside this
    file (Odoo core, the temporary-name generator, the external binary) is
    a field of the [Platform] class.

    Modelling decisions:
    - [mkstemp], writing to a fresh descriptor and starting the process
      always succeed; [open] fails on a missing file and [os.unlink] on a
      missing or locked one, both with [OSError];
    - an exception leaves the world as it was when it was raised;
    - [_] is the identity (no translation loaded);
    - the pipes of the process are [bytes] objects and [%s] turns them into
      text as Python 3 does, through their [repr];
    - the list of system calls is bookkeeping of the model: the method
      cannot read it. *)

From Stdlib Require Import ZArith Lia.
From Stdlib Require Import Strings.Byte Strings.Ascii Strings.String.
From stdpp Require Import base decidable option list strings pretty gmap fin_maps.

Local Open Scope Z_scope.
Local Open Scope string_scope.
Local Open Scope list_scope.

(** ** Python values used by the method *)

(** [bytes] objects: the HTML documents, the PDF and the captured pipes. *)
Abbreviation bytes := (list byte).

(** [if x:] for an argument that is [None] or a [bytes] object. *)
Definition truthy (x : option bytes) : bool :=
  match x with
  | Some (_ :: _) => true
  | Some [] => false
  | None => false
  end.

(** [b[start:]] with Python's treatment of a negative start. *)
Definition slice_from {A} (start : Z) (l : list A) : list A :=
  let n := Z.of_nat (length l) in
  let i := (if start <? 0 then Z.max 0 (n + start) else Z.min start n)%Z in
  drop (Z.to_nat i) l.

(** [bytes.splitlines()]: lines end at LF, CR or CR LF, the terminators are
    dropped and no empty last line is produced. *)
Fixpoint splitlines_from (current : bytes) (b : bytes) : list bytes :=
  match b with
  | [] => match current with [] => [] | _ => [reverse current] end
  | x0a :: rest => reverse current :: splitlines_from [] rest
  | x0d :: rest =>
      match rest with
      | x0a :: rest' => reverse current :: splitlines_from [] rest'
      | _ => reverse current :: splitlines_from [] rest
      end
  | c :: rest => splitlines_from (c :: current) rest
  end.

Definition splitlines (b : bytes) : list bytes := splitlines_from [] b.

(** [template % args] for templates whose only conversions are [%s] and
    [%d], the arguments being already converted to text.  [None] is
    Python's refusal to format (too few or too many arguments, or a
    conversion the method never uses). *)
Fixpoint percent (template : string) (args : list string) : option string :=
  match template with
  | EmptyString => match args with [] => Some EmptyString | _ => None end
  | String "%"%char EmptyString => None
  | String "%"%char (String c rest) =>
      if Ascii.eqb c "s" || Ascii.eqb c "d" then
        match args with
        | a :: args' => (λ r, a +:+ r) <$> percent rest args'
        | [] => None
        end
      else None
  | String c rest => String c <$> percent rest args
  end.

(** [str(b)] for a [bytes] object, which is what [%s] makes of it: the
    [repr] of Python 3.  The quote is the apostrophe, or the double quote
    when the bytes hold an apostrophe and no double quote; the quote and the
    backslash are escaped with a backslash, tab, line feed and carriage
    return are written [\t], [\n], [\r], every other byte below 32 or
    above 126 is written [\x] and two hexadecimal digits. *)
Definition hex_digit (n : N) : ascii :=
  match n with
  | 0 => "0" | 1 => "1" | 2 => "2" | 3 => "3" | 4 => "4" | 5 => "5"
  | 6 => "6" | 7 => "7" | 8 => "8" | 9 => "9" | 10 => "a" | 11 => "b"
  | 12 => "c" | 13 => "d" | 14 => "e" | _ => "f"
  end%N%char.

Definition backslash : ascii := "092"%char.

Definition escape_byte (quote : N) (c : byte) : string :=
  let n := Byte.to_N c in
  (if (n =? quote) || (n =? 92) then
     String backslash (String (ascii_of_byte c) EmptyString)
   else if n =? 9 then String backslash "t"
   else if n =? 10 then String backslash "n"
   else if n =? 13 then String backslash "r"
   else if (n <? 32) || (127 <=? n) then
     String backslash
       (String "x" (String (hex_digit (n / 16))
                      (String (hex_digit (n mod 16)) EmptyString)))
   else String (ascii_of_byte c) EmptyString)%N.

Definition holds_byte (n : N) (b : bytes) : bool :=
  existsb (λ c, (Byte.to_N c =? n)%N) b.

Definition repr_quote (b : bytes) : N :=
  if holds_byte 39 b && negb (holds_byte 34 b) then 34%N else 39%N.

Definition str_bytes (b : bytes) : string :=
  let quote := repr_quote b in
  String "b"
    (String (ascii_of_N quote)
       (String.concat "" (escape_byte quote <$> b)
        +:+ String (ascii_of_N quote) EmptyString)).
Global Arguments str_bytes : simpl never.

(** [enumerate(l)], counting from [i]. *)
Fixpoint enumerate_from {A} (i : nat) (l : list A) : list (nat * A) :=
  match l with
  | [] => []
  | x :: l' => (i, x) :: enumerate_from (S i) l'
  end.

Definition enumerate {A} (l : list A) : list (nat * A) := enumerate_from 0 l.

(** [_( )] with no translation loaded: the source term itself. *)
Definition translate (source : string) : string := source.

(** ** The world the method runs in *)

Inductive level := INFO | WARNING | ERROR.

Inductive syscall :=
  | SysMkstemp (suffix prefix path : string)
  | SysWrite (path : string) (data : bytes)
  | SysExec (argv : list string)
  | SysRead (path : string)
  | SysUnlink (path : string) (removed : bool).

Record World := mkWorld {
  files : gmap string bytes;
  locked : gset string;
  syslog : list (level * string);
  calls : list syscall
}.

Definition set_files (f : gmap string bytes) (w : World) : World :=
  mkWorld f (locked w) (syslog w) (calls w).
Definition add_call (c : syscall) (w : World) : World :=
  mkWorld (files w) (locked w) (syslog w) (calls w ++ [c]).
Definition add_log (l : level) (m : string) (w : World) : World :=
  mkWorld (files w) (locked w) (syslog w ++ [(l, m)]) (calls w).

(** What [process.communicate()] and [process.returncode] give back, and
    the file system the process leaves behind. *)
Record Completed := mkCompleted {
  out : bytes;
  err : bytes;
  returncode : Z;
  files_after : gmap string bytes
}.

(** The surroundings of the method. *)
Class Platform := {
  (** [report.paperformat] records and the [specific_paperformat_args] dict *)
  paperformat : Type;
  paperformat_args : Type;
  (** [self.get_paperformat()] *)
  get_paperformat : paperformat;
  (** [self._build_wkhtmltopdf_args(...)] of Odoo core *)
  _build_wkhtmltopdf_args :
    paperformat → bool → option paperformat_args → bool → list string;
  (** [odoo.tools.find_in_path] *)
  find_in_path : string → string;
  (** [tempfile.gettempdir()] and the name [tempfile.mkstemp] picks there *)
  gettempdir : string;
  mkstemp_name : gmap string bytes → string → string → string;
  mkstemp_shape : ∀ fs suffix prefix, ∃ random,
    mkstemp_name fs suffix prefix
    = gettempdir +:+ "/" +:+ prefix +:+ random +:+ suffix;
  mkstemp_fresh : ∀ fs suffix prefix,
    fs !! mkstemp_name fs suffix prefix = None;
  (** the external program, run on an argument vector and a file system *)
  run_process : list string → gmap string bytes → Completed
}.

(** ** Exceptions and the monad of the method *)

Inductive exn :=
  | UserError (message : string)
  | OSError (filename : string)
  | TypeError.

Inductive outcome (A : Type) :=
  | Return (a : A)
  | Raise (e : exn).
Arguments Return {A} a.
Arguments Raise {A} e.

Definition Py (A : Type) : Type := World → outcome A * World.

Global Instance Py_ret : MRet Py := λ A a w, (Return a, w).

Global Instance Py_bind : MBind Py := λ A B k m w,
  match m w with
  | (Return a, w') => k a w'
  | (Raise e, w') => (Raise e, w')
  end.

Definition raise {A} (e : exn) : Py A := λ w, (Raise e, w).

(** [try: m except: handler] *)
Definition try_except {A} (m : Py A) (handler : exn → Py A) : Py A :=
  λ w, match m w with
       | (Return a, w') => (Return a, w')
       | (Raise e, w') => handler e w'
       end.

(** [for x in xs: body], the loop body updating the loop's variables [s]. *)
Fixpoint for_each {A S} (xs : list A) (body : A → S → Py S) (s : S) : Py S :=
  match xs with
  | [] => mret s
  | x :: xs' => s' ← body x s; for_each xs' body s'
  end.

(** [template % args], raising [TypeError] as Python does. *)
Definition format (template : string) (args : list string) : Py string :=
  match percent template args with
  | Some s => mret s
  | None => raise TypeError
  end.

Definition log (l : level) (m : string) : Py unit :=
  λ w, (Return tt, add_log l m w).

(** ** The method *)

Section method.
Context `{Platform}.

(** [tempfile.mkstemp(suffix=..., prefix=...)]: a new, empty file. *)
Definition mkstemp (suffix prefix : string) : Py string := λ w,
  let path := mkstemp_name (files w) suffix prefix in
  (Return path,
   add_call (SysMkstemp suffix prefix path)
     (set_files (<[path := []]> (files w)) w)).

(** [with closing(os.fdopen(fd, "wb")) as f: f.write(data)] on the
    descriptor of [path]. *)
Definition write_and_close (path : string) (data : bytes) : Py unit := λ w,
  (Return tt,
   add_call (SysWrite path data) (set_files (<[path := data]> (files w)) w)).

(** [os.close(fd)] on the descriptor of [path]. *)
Definition os_close (path : string) : Py unit := mret tt.

(** [subprocess.Popen(argv, stdout=PIPE, stderr=PIPE)] followed by
    [communicate()]. *)
Definition popen_communicate (argv : list string) : Py Completed := λ w,
  let process := run_process argv (files w) in
  (Return process,
   add_call (SysExec argv) (set_files (files_after process) w)).

(** [with open(path, "rb") as f: f.read()] *)
Definition open_read (path : string) : Py bytes := λ w,
  match files w !! path with
  | Some data => (Return data, add_call (SysRead path) w)
  | None => (Raise (OSError path), w)
  end.

(** [os.unlink(path)]: refused for a missing or a locked path. *)
Definition os_unlink (path : string) : Py unit := λ w,
  if bool_decide (is_Some (files w !! path) ∧ path ∉ locked w) then
    (Return tt,
     add_call (SysUnlink path true) (set_files (delete path (files w)) w))
  else (Raise (OSError path), add_call (SysUnlink path false) w).

Definition _get_wkhtmltopdf_bin : string := find_in_path "wkhtmltopdf".

(** The local variables alive after the staging of the input (line 75). *)
Record Staged := mkStaged {
  files_command_args : list string;
  temporary_files : list string;
  paths : list string;
  pdf_report_path : string
}.

(** The body of the loop of lines 65 to 71, on the loop's two lists. *)
Definition stage_body (item : nat * bytes) (lists : list string * list string)
  : Py (list string * list string) :=
  let '(i, body) := item in
  let '(paths, temporary_files) := lists in
  prefix ← format "%s%d." ["report.body.tmp."; pretty i];
  body_file_path ← mkstemp ".html" prefix;
  write_and_close body_file_path body;;
  mret (paths ++ [body_file_path], temporary_files ++ [body_file_path]).

(** The body of the loop of lines 110 to 114. *)
Definition remove_file (temporary_file : string) (_ : unit) : Py unit :=
  try_except (os_unlink temporary_file)
    (λ e, match e with
          | OSError _ =>
              m ← format "Error when trying to remove file %s"
                    [temporary_file];
              log ERROR m
          | _ => raise e
          end).

(** The bodies of the loops of lines 85 to 89. *)
Definition log_line (template : string) (line : bytes) (_ : unit) : Py unit :=
  m ← format template [str_bytes line];
  log INFO m.

(** Lines 49 to 75. *)
Definition stage_inputs (bodies : list bytes) (header footer : option bytes)
  : Py Staged :=
  let files_command_args := [] in
  let temporary_files := [] in
  '(files_command_args, temporary_files) ←
    (if truthy header then
       head_file_path ← mkstemp ".html" "report.header.tmp.";
       write_and_close head_file_path (default [] header);;
       mret (files_command_args ++ ["--header-html"; head_file_path],
             temporary_files ++ [head_file_path])
     else mret (files_command_args, temporary_files));
  '(files_command_args, temporary_files) ←
    (if truthy footer then
       foot_file_path ← mkstemp ".html" "report.footer.tmp.";
       write_and_close foot_file_path (default [] footer);;
       mret (files_command_args ++ ["--footer-html"; foot_file_path],
             temporary_files ++ [foot_file_path])
     else mret (files_command_args, temporary_files));
  let paths := [] in
  '(paths, temporary_files) ←
    for_each (enumerate bodies) stage_body (paths, temporary_files);
  pdf_report_path ← mkstemp ".pdf" "report.tmp.";
  os_close pdf_report_path;;
  let temporary_files := temporary_files ++ [pdf_report_path] in
  mret (mkStaged files_command_args temporary_files paths pdf_report_path).

(** The command line of line 78. *)
Definition wkhtmltopdf_command (command_args : list string) (s : Staged)
  : list string :=
  [_get_wkhtmltopdf_bin] ++ command_args ++ files_command_args s
    ++ paths s ++ [pdf_report_path s].

(** The message template chosen on lines 94 to 98. *)
Definition failure_message (returncode : Z) : string :=
  if bool_decide (returncode = -11) then
    translate "Wkhtmltopdf failed (error code: %s). Memory limit too low or maximum file number of subprocess reached. Message : %s"
  else
    translate "Wkhtmltopdf failed (error code: %s). Message: %s".

(** Lines 77 to 104. *)
Definition render (command_args : list string) (s : Staged) : Py unit :=
  try_except
    (let wkhtmltopdf := wkhtmltopdf_command command_args s in
     m ← format "[[ Wkhtmltopdf ]] command: %s" [String.concat "" wkhtmltopdf];
     log INFO m;;
     process ← popen_communicate wkhtmltopdf;
     for_each (splitlines (out process))
       (log_line "[[ Wkhtmltopdf ]] out: %s") tt;;
     for_each (splitlines (err process))
       (log_line "[[ Wkhtmltopdf ]] err: %s") tt;;
     m ← format "[[ Wkhtmltopdf ]] returncode: %d"
           [pretty (returncode process)];
     log INFO m;;
     if bool_decide (returncode process ∉ [0; 1]) then
       let message := failure_message (returncode process) in
       m ← format message [pretty (returncode process);
                           str_bytes (slice_from (-1000) (err process))];
       raise (UserError m)
     else if truthy (Some (err process)) then
       m ← format "wkhtmltopdf: %s" [str_bytes (err process)];
       log WARNING m
     else mret tt)
    (λ e, raise e).

(** Lines 106 to 116. *)
Definition collect (s : Staged) : Py bytes :=
  pdf_content ← open_read (pdf_report_path s);
  for_each (temporary_files s) remove_file tt;;
  mret pdf_content.

Definition _run_wkhtmltopdf (bodies : list bytes) (header footer : option bytes)
    (landscape : bool) (specific_paperformat_args : option paperformat_args)
    (set_viewport_size : bool) : Py bytes :=
  let paperformat_id := get_paperformat in
  let command_args :=
    _build_wkhtmltopdf_args paperformat_id landscape
      specific_paperformat_args set_viewport_size in
  s ← stage_inputs bodies header footer;
  render command_args s;;
  collect s.

End method.

(** ** Vocabulary of the statements *)

Section vocabulary.
Context `{Platform}.

(** [created w items w']: between [w] and [w'] exactly the files [items]
    (path and content, in creation order) came into being, under names
    that were free in [w]; nothing else changed on disk, in the locks or
    in the log. *)
Definition created (w : World) (items : list (string * bytes)) (w' : World)
  : Prop :=
  NoDup items.*1 ∧
  (∀ p d, (p, d) ∈ items → files w !! p = None ∧ files w' !! p = Some d) ∧
  (∀ q, q ∉ items.*1 → files w' !! q = files w !! q) ∧
  locked w' = locked w ∧ syslog w' = syslog w.

(** The system calls of the loop of lines 65 to 71 for the files [items],
    the first of them being body number [i]. *)
Fixpoint body_calls (i : nat) (items : list (string * bytes)) : list syscall :=
  match items with
  | [] => []
  | (path, body) :: items' =>
      SysMkstemp ".html" ("report.body.tmp." +:+ pretty i +:+ ".") path
        :: SysWrite path body :: body_calls (S i) items'
  end.

(** [path] is a name [mkstemp] can give for [suffix] and [prefix]. *)
Definition temp_name (suffix prefix path : string) : Prop :=
  ∃ random, path = gettempdir +:+ "/" +:+ prefix +:+ random +:+ suffix.

(** Every [mkstemp] of a trace gave such a name. *)
Definition named_call (c : syscall) : Prop :=
  match c with
  | SysMkstemp suffix prefix path => temp_name suffix prefix path
  | _ => True
  end.

(** One file staged by [mkstemp] and a write of [data]. *)
Definition staged_file (suffix prefix : string) (data : bytes) (w : World)
  : string * World :=
  let path := mkstemp_name (files w) suffix prefix in
  (path,
   add_call (SysWrite path data)
     (set_files (<[path := data]> (<[path := []]> (files w)))
        (add_call (SysMkstemp suffix prefix path) w))).

(** The arguments and the files a header or footer contributes, given the
    path [o] it was staged at, if it was staged. *)
Definition flag_args (flag : string) (o : option string) : list string :=
  match o with Some path => [flag; path] | None => [] end.

Definition optional_items (o : option string) (x : option bytes)
  : list (string * bytes) :=
  match o with Some path => [(path, default [] x)] | None => [] end.

Definition optional_calls (prefix : string) (o : option string)
    (x : option bytes) : list syscall :=
  match o with
  | Some path => [SysMkstemp ".html" prefix path; SysWrite path (default [] x)]
  | None => []
  end.

(** The system calls of lines 51 to 75, given where each file went. *)
Definition staging_calls (header footer : option bytes) (hp fp : option string)
    (items : list (string * bytes)) (pdf : string) : list syscall :=
  optional_calls "report.header.tmp." hp header
  ++ optional_calls "report.footer.tmp." fp footer
  ++ body_calls 0 items
  ++ [SysMkstemp ".pdf" "report.tmp." pdf].

(** The records the method logs for one line of a pipe. *)
Definition line_records (label : string) (b : bytes) : list (level * string) :=
  (λ line, (INFO, label +:+ str_bytes line)) <$> splitlines b.

(** What lines 80 to 91 log about [process], started with [argv]. *)
Definition render_records (argv : list string) (process : Completed)
  : list (level * string) :=
  [(INFO, "[[ Wkhtmltopdf ]] command: " +:+ String.concat "" argv)]
  ++ line_records "[[ Wkhtmltopdf ]] out: " (out process)
  ++ line_records "[[ Wkhtmltopdf ]] err: " (err process)
  ++ [(INFO, "[[ Wkhtmltopdf ]] returncode: " +:+ pretty (returncode process))].

(** The text of the [UserError] of line 99. *)
Definition failure_text (returncode : Z) (tail : string) : string :=
  if bool_decide (returncode = -11) then
    "Wkhtmltopdf failed (error code: " +:+ pretty returncode
    +:+ "). Memory limit too low or maximum file number of subprocess reached. Message : "
    +:+ tail
  else
    "Wkhtmltopdf failed (error code: " +:+ pretty returncode
    +:+ "). Message: " +:+ tail.

(** The record of line 114. *)
Definition removal_error (path : string) : level * string :=
  (ERROR, "Error when trying to remove file " +:+ path).

(** The paths whose unlink was refused, among [attempts]. *)
Definition refused (attempts : list (string * bool)) : list string :=
  (filter (λ a, a.2 = false) attempts).*1.

(** The world right after line 104, on either branch of line 93. *)
Definition rendered (w1 : World) (argv : list string) (process : Completed)
  : World :=
  mkWorld (files_after process) (locked w1)
    (syslog w1 ++ render_records argv process
     ++ (if bool_decide (returncode process ∉ [0; 1]) then []
         else if truthy (Some (err process))
         then [(WARNING, "wkhtmltopdf: " +:+ str_bytes (err process))]
         else []))
    (calls w1 ++ [SysExec argv]).

(** The paths [mkstemp] gave, and the paths [unlink] was called on, in the
    order of the calls. *)
Definition mkstemp_paths (cs : list syscall) : list string :=
  omap (λ c, match c with SysMkstemp _ _ path => Some path | _ => None end) cs.

Definition unlink_attempts (cs : list syscall) : list string :=
  omap (λ c, match c with SysUnlink path _ => Some path | _ => None end) cs.

(** Temporary names hold a slash; the two option names do not. *)
Fixpoint has_slash (s : string) : bool :=
  match s with
  | EmptyString => false
  | String c s' => Ascii.eqb c "/" || has_slash s'
  end.




End vocabulary.

(** * Facts about the method *)

Section facts.
Context `{Platform}.

(** The Python primitives on small inputs. *)
Example slice_from_short : slice_from (-2) [1; 2; 3] = [2; 3].
Proof. reflexivity. Qed.

Example slice_from_whole : slice_from (-5) [1; 2; 3] = [1; 2; 3].
Proof. reflexivity. Qed.

Example splitlines_mixed :
  splitlines (list_byte_of_string "a" ++ [x0d; x0a; x0a]
              ++ list_byte_of_string "b" ++ [x0d]
              ++ list_byte_of_string "c")
  = [list_byte_of_string "a"; []; list_byte_of_string "b";
     list_byte_of_string "c"].
Proof. reflexivity. Qed.

Example splitlines_empty : splitlines [] = [].
Proof. reflexivity. Qed.

Example percent_two : percent "%s%d." ["report.body.tmp."; "7"]
                      = Some "report.body.tmp.7.".
Proof. reflexivity. Qed.

Example percent_too_few : percent "%s and %s" ["one"] = None.
Proof. reflexivity. Qed.

Example percent_too_many : percent "%s" ["one"; "two"] = None.
Proof. reflexivity. Qed.

Example str_bytes_word :
  str_bytes (list_byte_of_string "boom") = "b'boom'".
Proof. reflexivity. Qed.

Example str_bytes_empty : str_bytes [] = "b''".
Proof. reflexivity. Qed.

Example str_bytes_escapes :
  list_byte_of_string (str_bytes [x61; x0a; x09; x0d; x5c; x00; xff; x7f; x7e])
  = [x62; x27; x61; x5c; x6e; x5c; x74; x5c; x72; x5c; x5c; x5c; x78; x30; x30; x5c; x78; x66; x66; x5c; x78; x37; x66; x7e; x27].
Proof. reflexivity. Qed.

Example str_bytes_apostrophe :
  list_byte_of_string (str_bytes [x69; x74; x27; x73])
  = [x62; x22; x69; x74; x27; x73; x22].
Proof. reflexivity. Qed.

Example str_bytes_both_quotes :
  list_byte_of_string (str_bytes [x27; x22])
  = [x62; x27; x5c; x27; x22; x27].
Proof. reflexivity. Qed.

Example str_bytes_double_quote :
  list_byte_of_string (str_bytes [x73; x61; x79; x20; x22; x78; x22])
  = [x62; x27; x73; x61; x79; x20; x22; x78; x22; x27].
Proof. reflexivity. Qed.

Example truthy_cases :
  truthy None = false ∧ truthy (Some []) = false
  ∧ truthy (Some [x00]) = true.
Proof. done. Qed.

Lemma append_empty (s : string) : s +:+ "" = s.
Proof.
  induction s as [|c s IH]; [done|].
  change (String c (s +:+ "") = String c s). by rewrite IH.
Qed.






Lemma append_assoc (a b c : string) : (a +:+ b) +:+ c = a +:+ b +:+ c.
Proof.
  induction a as [|x a IH]; [done|].
  change (String x ((a +:+ b) +:+ c) = String x (a +:+ b +:+ c)).
  by rewrite IH.
Qed.

Local Ltac split_created :=
  unfold created; split; [|split; [|split; [|split]]].

Lemma created_nil w w' :
  files w' = files w → locked w' = locked w → syslog w' = syslog w →
  created w [] w'.
Proof.
  intros Hf Hl Hs. split_created; try done.
  - constructor.
  - by intros p d ?%elem_of_nil.
  - intros q _. by rewrite Hf.
Qed.

Lemma created_single w p d w' :
  files w !! p = None → files w' !! p = Some d →
  (∀ q, q ≠ p → files w' !! q = files w !! q) →
  locked w' = locked w → syslog w' = syslog w →
  created w [(p, d)] w'.
Proof.
  intros Hfree Hnew Hframe Hl Hs. split_created; try done.
  - apply NoDup_singleton.
  - by intros p' d' [= -> ->]%list_elem_of_singleton.
  - intros q Hq. apply Hframe. intros ->. apply Hq. cbn. by left.
Qed.

Lemma created_app w a w1 b w2 :
  created w a w1 → created w1 b w2 → created w (a ++ b) w2.
Proof.
  intros (Hnd1 & Hin1 & Hfr1 & Hl1 & Hs1) (Hnd2 & Hin2 & Hfr2 & Hl2 & Hs2).
  assert (Hdisj : ∀ p, p ∈ a.*1 → p ∉ b.*1).
  { intros p ([p1 d1] & -> & Ha)%list_elem_of_fmap
             ([p2 d2] & Heq & Hb)%list_elem_of_fmap.
    cbn in Heq. subst p2.
    destruct (Hin1 _ _ Ha) as [_ E1]. destruct (Hin2 _ _ Hb) as [E2 _].
    congruence. }
  split_created.
  - rewrite fmap_app. apply NoDup_app. auto.
  - intros p d [Ha|Hb]%elem_of_app.
    + destruct (Hin1 _ _ Ha) as [E0 E1]. split; [done|].
      rewrite <- E1. apply Hfr2.
      apply Hdisj. apply list_elem_of_fmap. by exists (p, d).
    + destruct (Hin2 _ _ Hb) as [E2 E3]. split; [|done].
      rewrite <- E2. symmetry. apply Hfr1.
      intros ([p1 d1] & Heq & Ha)%list_elem_of_fmap. cbn in Heq. subst p1.
      destruct (Hin1 _ _ Ha) as [_ E1]. congruence.
  - intros q Hq. rewrite fmap_app in Hq.
    rewrite Hfr2, Hfr1; [done| |]; intros ?; apply Hq, elem_of_app; auto.
  - congruence.
  - congruence.
Qed.

Lemma bind_run {A B} (m : Py A) (k : A → Py B) w :
  (m ≫= k) w
  = match m w with
    | (Return a, w') => k a w'
    | (Raise e, w') => (Raise e, w')
    end.
Proof. reflexivity. Qed.

Lemma staged_file_created suffix prefix data w :
  created w [((staged_file suffix prefix data w).1, data)]
    (staged_file suffix prefix data w).2.
Proof.
  apply created_single; cbn; try done.
  - apply mkstemp_fresh.
  - apply lookup_insert_eq.
  - intros q Hq. by rewrite !lookup_insert_ne.
Qed.

Lemma staged_file_calls suffix prefix data w :
  calls (staged_file suffix prefix data w).2
  = calls w ++ [SysMkstemp suffix prefix (staged_file suffix prefix data w).1;
                SysWrite (staged_file suffix prefix data w).1 data].
Proof. cbn. by rewrite <- app_assoc. Qed.

Lemma staged_file_named suffix prefix data w :
  temp_name suffix prefix (staged_file suffix prefix data w).1.
Proof. apply mkstemp_shape. Qed.

Lemma stage_body_run i body ps tf w :
  stage_body (i, body) (ps, tf) w
  = let '(path, w') :=
      staged_file ".html" ("report.body.tmp." +:+ pretty i +:+ ".") body w in
    (Return (ps ++ [path], tf ++ [path]), w').
Proof. reflexivity. Qed.

Lemma stage_bodies_spec bodies : ∀ i ps0 tf0 w, ∃ ps w',
  for_each (enumerate_from i bodies) stage_body (ps0, tf0) w
    = (Return (ps0 ++ ps, tf0 ++ ps), w') ∧
  length ps = length bodies ∧
  created w (zip ps bodies) w' ∧
  calls w' = calls w ++ body_calls i (zip ps bodies) ∧
  Forall named_call (body_calls i (zip ps bodies)).
Proof.
  induction bodies as [|body bodies IH]; intros i ps0 tf0 w.
  - exists [], w. rewrite !app_nil_r. split; [done|]. split; [done|].
    split; [by apply created_nil|]. split; [done|]. constructor.
  - cbn [enumerate_from for_each]. rewrite bind_run, stage_body_run.
    pose proof (staged_file_created ".html"
      ("report.body.tmp." +:+ pretty i +:+ ".") body w) as Hc.
    pose proof (staged_file_calls ".html"
      ("report.body.tmp." +:+ pretty i +:+ ".") body w) as Hk.
    pose proof (staged_file_named ".html"
      ("report.body.tmp." +:+ pretty i +:+ ".") body w) as Hn.
    destruct (staged_file _ _ body w) as [p w1]. cbn [fst snd] in Hc, Hk, Hn.
    destruct (IH (S i) (ps0 ++ [p]) (tf0 ++ [p]) w1)
      as (ps & w' & Hrun & Hlen & Hcre & Hcalls & Hnamed).
    exists (p :: ps), w'. rewrite Hrun, <- !app_assoc. split; [done|].
    split; [cbn; by rewrite Hlen|].
    split; [apply (created_app w [(p, body)] w1); done|].
    split; [rewrite Hcalls, Hk, <- app_assoc; done|].
    cbn [zip zip_with body_calls]. by repeat constructor.
Qed.

Lemma stage_optional (flag prefix : string) (x : option bytes)
    (fca tf : list string) w : ∃ o w',
  (if truthy x then
     file_path ← mkstemp ".html" prefix;
     write_and_close file_path (default [] x);;
     mret (fca ++ [flag; file_path], tf ++ [file_path])
   else mret (fca, tf)) w
    = (Return (fca ++ flag_args flag o, tf ++ option_list o), w') ∧
  (is_Some o ↔ truthy x = true) ∧
  created w (optional_items o x) w' ∧
  calls w' = calls w ++ optional_calls prefix o x ∧
  Forall named_call (optional_calls prefix o x).
Proof.
  destruct (truthy x) eqn:E.
  - pose proof (staged_file_created ".html" prefix (default [] x) w) as Hc.
    pose proof (staged_file_calls ".html" prefix (default [] x) w) as Hk.
    pose proof (staged_file_named ".html" prefix (default [] x) w) as Hn.
    exists (Some (staged_file ".html" prefix (default [] x) w).1),
           (staged_file ".html" prefix (default [] x) w).2.
    split; [reflexivity|]. split; [by split; eauto|]. split; [done|].
    split; [done|]. by repeat constructor.
  - exists None, w. cbn [flag_args option_list optional_items optional_calls].
    rewrite !app_nil_r. split; [reflexivity|].
    split; [split; [by intros [??]|done]|]. split; [by apply created_nil|].
    split; [done|]. constructor.
Qed.

Lemma stage_inputs_spec bodies header footer w : ∃ hp fp ps pdf w1,
  stage_inputs bodies header footer w
    = (Return (mkStaged
                 (flag_args "--header-html" hp ++ flag_args "--footer-html" fp)
                 (option_list hp ++ option_list fp ++ ps ++ [pdf]) ps pdf),
       w1) ∧
  (is_Some hp ↔ truthy header = true) ∧
  (is_Some fp ↔ truthy footer = true) ∧
  length ps = length bodies ∧
  created w (optional_items hp header ++ optional_items fp footer
             ++ zip ps bodies ++ [(pdf, [])]) w1 ∧
  calls w1
    = calls w ++ staging_calls header footer hp fp (zip ps bodies) pdf ∧
  Forall named_call (staging_calls header footer hp fp (zip ps bodies) pdf).
Proof.
  unfold stage_inputs.
  destruct (stage_optional "--header-html" "report.header.tmp." header [] [] w)
    as (hp & wa & Eh & Hh & Hca & Hka & Hna).
  rewrite bind_run, Eh. cbn beta iota.
  destruct (stage_optional "--footer-html" "report.footer.tmp." footer
              ([] ++ flag_args "--header-html" hp) ([] ++ option_list hp) wa)
    as (fp & wb & Ef & Hf & Hcb & Hkb & Hnb).
  rewrite bind_run, Ef. cbn beta iota.
  destruct (stage_bodies_spec bodies 0 []
              (([] ++ option_list hp) ++ option_list fp) wb)
    as (ps & wc & Eb & Hlen & Hcc & Hkc & Hnc).
  unfold enumerate. rewrite bind_run, Eb. cbn beta iota.
  set (pdf := mkstemp_name (files wc) ".pdf" "report.tmp.").
  set (w1 := add_call (SysMkstemp ".pdf" "report.tmp." pdf)
               (set_files (<[pdf := []]> (files wc)) wc)).
  assert (Hcd : created wc [(pdf, [])] w1).
  { apply created_single; cbn; try done.
    - apply mkstemp_fresh.
    - apply lookup_insert_eq.
    - intros q Hq. by rewrite lookup_insert_ne. }
  exists hp, fp, ps, pdf, w1.
  split.
  { transitivity
      (Return (mkStaged
                 (([] ++ flag_args "--header-html" hp)
                    ++ flag_args "--footer-html" fp)
                 (((([] ++ option_list hp) ++ option_list fp) ++ ps) ++ [pdf])
                 ([] ++ ps) pdf), w1); [reflexivity|].
    cbn [app]. by rewrite <- !app_assoc. }
  split; [done|]. split; [done|]. split; [done|]. split; [|split].
  - eapply created_app; [exact Hca|]. eapply created_app; [exact Hcb|].
    eapply created_app; [exact Hcc|exact Hcd].
  - cbn [w1 calls add_call set_files]. rewrite Hkc, Hkb, Hka.
    unfold staging_calls. by rewrite <- !app_assoc.
  - unfold staging_calls. rewrite !Forall_app.
    split; [done|]. split; [done|]. split; [done|].
    repeat constructor. apply mkstemp_shape.
Qed.

Lemma format_failure returncode tail :
  percent (failure_message returncode) [pretty returncode; tail]
  = Some (failure_text returncode tail).
Proof.
  unfold failure_message, failure_text, translate.
  case_bool_decide; cbn; by rewrite append_empty.
Qed.

Lemma format_run template args text w :
  percent template args = Some text → format template args w = (Return text, w).
Proof. intros E. unfold format. by rewrite E. Qed.

Lemma percent_label_s (x : string) :
  (percent "[[ Wkhtmltopdf ]] command: %s" [x]
   = Some ("[[ Wkhtmltopdf ]] command: " +:+ x))
  ∧ (percent "[[ Wkhtmltopdf ]] out: %s" [x]
     = Some ("[[ Wkhtmltopdf ]] out: " +:+ x))
  ∧ (percent "[[ Wkhtmltopdf ]] err: %s" [x]
     = Some ("[[ Wkhtmltopdf ]] err: " +:+ x))
  ∧ (percent "[[ Wkhtmltopdf ]] returncode: %d" [x]
     = Some ("[[ Wkhtmltopdf ]] returncode: " +:+ x))
  ∧ (percent "wkhtmltopdf: %s" [x] = Some ("wkhtmltopdf: " +:+ x))
  ∧ (percent "Error when trying to remove file %s" [x]
     = Some ("Error when trying to remove file " +:+ x)).
Proof. cbn. by rewrite append_empty. Qed.

Lemma log_lines_run (template label : string) lines : ∀ w,
  (∀ x, percent template [x] = Some (label +:+ x)) →
  for_each lines (log_line template) tt w
  = (Return tt,
     mkWorld (files w) (locked w)
       (syslog w ++ ((λ line, (INFO, label +:+ str_bytes line)) <$> lines))
       (calls w)).
Proof.
  intros w Hfmt. revert w.
  induction lines as [|line lines IH]; intros w.
  - cbn. rewrite app_nil_r. by destruct w.
  - cbn [for_each]. rewrite bind_run. unfold log_line at 1.
    rewrite bind_run. unfold format. rewrite Hfmt. cbn.
    rewrite IH. cbn. by rewrite <- app_assoc.
Qed.

Lemma render_run command_args s w :
  let argv := wkhtmltopdf_command command_args s in
  let process := run_process argv (files w) in
  render command_args s w
  = if bool_decide (returncode process ∉ [0; 1]) then
      (Raise (UserError
                (failure_text (returncode process)
                   (str_bytes (slice_from (-1000) (err process))))),
       mkWorld (files_after process) (locked w)
         (syslog w ++ render_records argv process)
         (calls w ++ [SysExec argv]))
    else
      (Return tt,
       mkWorld (files_after process) (locked w)
         (syslog w ++ render_records argv process
          ++ (if truthy (Some (err process))
              then [(WARNING, "wkhtmltopdf: " +:+ str_bytes (err process))]
              else []))
         (calls w ++ [SysExec argv])).
Proof.
  intros argv process. unfold render, try_except. fold argv. cbn zeta.
  rewrite bind_run, (format_run _ _ _ _ (proj1 (percent_label_s _))).
  rewrite bind_run. unfold log at 1.
  rewrite bind_run. unfold popen_communicate at 1. cbn [files add_log].
  fold process.
  rewrite bind_run, (log_lines_run _ "[[ Wkhtmltopdf ]] out: ")
    by (intros x; apply (percent_label_s x)).
  rewrite bind_run, (log_lines_run _ "[[ Wkhtmltopdf ]] err: ")
    by (intros x; apply (percent_label_s x)).
  rewrite bind_run, (format_run _ _ _ _
    (proj1 (proj2 (proj2 (proj2 (percent_label_s _)))))).
  rewrite bind_run. unfold log at 1.
  cbn [files locked syslog calls add_call add_log set_files].
  unfold render_records, line_records.
  case_bool_decide.
  - rewrite bind_run, (format_run _ _ _ _ (format_failure _ _)).
    unfold raise, add_log. cbn [files locked syslog calls].
    by rewrite <- !app_assoc.
  - destruct (truthy (Some (err process))).
    + rewrite bind_run, (format_run _ _ _ _
        (proj1 (proj2 (proj2 (proj2 (proj2 (percent_label_s _))))))).
      unfold log, add_log. cbn [files locked syslog calls].
      by rewrite <- !app_assoc.
    + unfold add_log. cbn [files locked syslog calls mret Py_ret].
      by rewrite !app_nil_r, <- !app_assoc.
Qed.

Lemma remove_file_run path w :
  remove_file path tt w
  = if bool_decide (is_Some (files w !! path) ∧ path ∉ locked w) then
      (Return tt,
       mkWorld (delete path (files w)) (locked w) (syslog w)
         (calls w ++ [SysUnlink path true]))
    else
      (Return tt,
       mkWorld (files w) (locked w) (syslog w ++ [removal_error path])
         (calls w ++ [SysUnlink path false])).
Proof.
  unfold remove_file, try_except, os_unlink.
  case_bool_decide; [done|].
  rewrite bind_run, (format_run _ _ _ _
    (proj2 (proj2 (proj2 (proj2 (proj2 (percent_label_s _))))))).
  reflexivity.
Qed.

Lemma cleanup_spec tf : ∀ w, ∃ w' attempts,
  for_each tf remove_file tt w = (Return tt, w') ∧
  attempts.*1 = tf ∧
  calls w' = calls w ++ (uncurry SysUnlink <$> attempts) ∧
  syslog w' = syslog w ++ (removal_error <$> refused attempts) ∧
  locked w' = locked w ∧
  (∀ p, p ∈ tf → p ∉ locked w → files w' !! p = None) ∧
  (∀ p, p ∈ locked w → files w' !! p = files w !! p) ∧
  (∀ q, q ∉ tf → files w' !! q = files w !! q) ∧
  (∀ p, p ∈ tf → p ∈ locked w ∨ files w !! p = None → (p, false) ∈ attempts).
Proof.
  induction tf as [|path tf IH]; intros w.
  - exists w, []. cbn. rewrite !app_nil_r.
    repeat (split; [done|]). split; [by intros p ?%elem_of_nil|].
    split; [done|]. split; [done|]. by intros p ?%elem_of_nil.
  - cbn [for_each]. rewrite bind_run, remove_file_run.
    case_bool_decide as Hok.
    + destruct Hok as [Hsome Hfree].
      destruct (IH (mkWorld (delete path (files w)) (locked w) (syslog w)
                      (calls w ++ [SysUnlink path true])))
        as (w' & attempts & Hrun & Hpaths & Hcalls & Hlog & Hlock
            & Hgone & Hkept & Hframe & Hrefused).
      cbn [files locked syslog calls] in *.
      exists w', ((path, true) :: attempts). rewrite Hrun.
      split; [done|]. split; [cbn; by rewrite Hpaths|].
      split; [rewrite Hcalls, <- app_assoc; done|].
      split; [done|]. split; [done|]. split; [|split; [|split]].
      * intros p Hin Hp. destruct (decide (p ∈ tf)) as [Htf|Htf]; [eauto|].
        apply elem_of_cons in Hin as [->|?]; [|done].
        rewrite Hframe by done. apply lookup_delete_eq.
      * intros p Hp. rewrite Hkept by done. apply lookup_delete_ne.
        by intros ->.
      * intros q Hq. apply not_elem_of_cons in Hq as [Hne Hq].
        rewrite Hframe by done. by apply lookup_delete_ne.
      * intros p Hin Hp. apply elem_of_cons. right.
        apply elem_of_cons in Hin as [->|Hin].
        { destruct Hp as [Hp|Hp]; [done|].
          rewrite Hp in Hsome. by destruct Hsome. }
        apply Hrefused; [done|]. destruct Hp as [Hp|Hp]; [by left|right].
        destruct (decide (path = p)) as [->|Hne].
        { apply lookup_delete_eq. }
        by rewrite lookup_delete_ne.
    + destruct (IH (mkWorld (files w) (locked w)
                      (syslog w ++ [removal_error path])
                      (calls w ++ [SysUnlink path false])))
        as (w' & attempts & Hrun & Hpaths & Hcalls & Hlog & Hlock
            & Hgone & Hkept & Hframe & Hrefused).
      cbn [files locked syslog calls] in *.
      exists w', ((path, false) :: attempts). rewrite Hrun.
      split; [done|]. split; [cbn; by rewrite Hpaths|].
      split; [rewrite Hcalls, <- app_assoc; done|].
      split; [rewrite Hlog, <- app_assoc; done|].
      split; [done|]. split; [|split; [done|split]].
      * intros p Hin Hp. destruct (decide (p ∈ tf)) as [Htf|Htf]; [eauto|].
        apply elem_of_cons in Hin as [->|?]; [|done].
        rewrite Hframe by done.
        destruct (files w !! path) eqn:E; [|done].
        exfalso. apply Hok. eauto.
      * intros q Hq. apply not_elem_of_cons in Hq as [Hne Hq]. eauto.
      * intros p Hin Hp. apply elem_of_cons.
        apply elem_of_cons in Hin as [->|Hin]; [by left|right; eauto].
Qed.

Lemma refused_logged attempts path :
  (path, false) ∈ attempts → removal_error path ∈ removal_error <$> refused attempts.
Proof.
  intros Hin. apply list_elem_of_fmap. exists path. split; [done|].
  unfold refused. apply list_elem_of_fmap. exists (path, false).
  split; [done|]. by apply list_elem_of_filter.
Qed.

Lemma collect_run s w :
  collect s w
  = match files w !! pdf_report_path s with
    | Some pdf_content =>
        let '(_, w') :=
          for_each (temporary_files s) remove_file tt
            (add_call (SysRead (pdf_report_path s)) w) in
        (Return pdf_content, w')
    | None => (Raise (OSError (pdf_report_path s)), w)
    end.
Proof.
  unfold collect. rewrite bind_run. unfold open_read.
  destruct (files w !! pdf_report_path s) as [content|]; [|done].
  rewrite bind_run.
  destruct (cleanup_spec (temporary_files s)
              (add_call (SysRead (pdf_report_path s)) w))
    as (w' & attempts & -> & _). done.
Qed.

Lemma run_cases bodies header footer landscape spa svs w s w1 :
  stage_inputs bodies header footer w = (Return s, w1) →
  let argv :=
    wkhtmltopdf_command
      (_build_wkhtmltopdf_args get_paperformat landscape spa svs) s in
  let process := run_process argv (files w1) in
  _run_wkhtmltopdf bodies header footer landscape spa svs w
  = if bool_decide (returncode process ∉ [0; 1]) then
      (Raise (UserError
                (failure_text (returncode process)
                   (str_bytes (slice_from (-1000) (err process))))),
       rendered w1 argv process)
    else collect s (rendered w1 argv process).
Proof.
  intros Hstage argv process. unfold _run_wkhtmltopdf.
  rewrite bind_run, Hstage, bind_run, render_run. fold argv process.
  unfold rendered. case_bool_decide; [by rewrite app_nil_r|done].
Qed.


(** The staging always runs to its end. *)
Lemma stage_inputs_returns bodies header footer w :
  ∃ s w1, stage_inputs bodies header footer w = (Return s, w1).
Proof.
  destruct (stage_inputs_spec bodies header footer w)
    as (hp & fp & ps & pdf & w1 & Hrun & _).
  eauto.
Qed.

Lemma stage_inputs_inv bodies header footer w s w1 :
  stage_inputs bodies header footer w = (Return s, w1) →
  ∃ hp fp,
    files_command_args s
      = flag_args "--header-html" hp ++ flag_args "--footer-html" fp ∧
    temporary_files s
      = option_list hp ++ option_list fp ++ paths s ++ [pdf_report_path s] ∧
    (is_Some hp ↔ truthy header = true) ∧
    (is_Some fp ↔ truthy footer = true) ∧
    length (paths s) = length bodies ∧
    created w (optional_items hp header ++ optional_items fp footer
               ++ zip (paths s) bodies ++ [(pdf_report_path s, [])]) w1 ∧
    calls w1 = calls w ++ staging_calls header footer hp fp
                            (zip (paths s) bodies) (pdf_report_path s) ∧
    Forall named_call (staging_calls header footer hp fp
                         (zip (paths s) bodies) (pdf_report_path s)).
Proof.
  intros Hstage.
  destruct (stage_inputs_spec bodies header footer w)
    as (hp & fp & ps & pdf & w1' & Hrun & Hh & Hf & Hlen & Hc & Hk & Hn).
  rewrite Hrun in Hstage. injection Hstage as <- <-.
  exists hp, fp. cbn [files_command_args temporary_files paths pdf_report_path].
  done.
Qed.

Lemma run_returns bodies header footer landscape spa svs w s w1 content :
  stage_inputs bodies header footer w = (Return s, w1) →
  let argv :=
    wkhtmltopdf_command
      (_build_wkhtmltopdf_args get_paperformat landscape spa svs) s in
  let process := run_process argv (files w1) in
  returncode process ∈ [0; 1] →
  files_after process !! pdf_report_path s = Some content →
  ∃ w' attempts,
    _run_wkhtmltopdf bodies header footer landscape spa svs w
      = (Return content, w') ∧
    attempts.*1 = temporary_files s ∧
    calls w' = calls w1 ++ SysExec argv :: SysRead (pdf_report_path s)
               :: (uncurry SysUnlink <$> attempts) ∧
    syslog w' = syslog (rendered w1 argv process)
                ++ (removal_error <$> refused attempts) ∧
    locked w' = locked w ∧
    (∀ p, p ∈ temporary_files s → p ∉ locked w → files w' !! p = None) ∧
    (∀ p, p ∈ locked w → files w' !! p = files_after process !! p) ∧
    (∀ q, q ∉ temporary_files s → files w' !! q = files_after process !! q) ∧
    (∀ p, p ∈ temporary_files s →
       p ∈ locked w ∨ files_after process !! p = None →
       (p, false) ∈ attempts).
Proof.
  intros Hstage argv process Hrc Hpdf.
  rewrite (run_cases _ _ _ _ _ _ _ _ _ Hstage). fold argv process.
  rewrite bool_decide_eq_false_2 by (by intros []).
  rewrite collect_run. cbn [files rendered]. rewrite Hpdf.
  destruct (stage_inputs_inv _ _ _ _ _ _ Hstage)
    as (hp & fp & _ & _ & _ & _ & _ & (_ & _ & _ & Hlock & _) & _ & _).
  destruct (cleanup_spec (temporary_files s)
              (add_call (SysRead (pdf_report_path s))
                 (rendered w1 argv process)))
    as (w' & attempts & -> & Hpaths & Hcalls & Hlog & Hlocked
        & Hgone & Hkept & Hframe & Hrefused).
  cbn [files locked syslog calls add_call rendered] in *.
  rewrite Hlock in *.
  exists w', attempts. split; [done|]. split; [done|].
  split; [rewrite Hcalls, <- !app_assoc; done|]. done.
Qed.

Lemma mkstemp_paths_app cs1 cs2 :
  mkstemp_paths (cs1 ++ cs2) = mkstemp_paths cs1 ++ mkstemp_paths cs2.
Proof. apply omap_app. Qed.

Lemma unlink_attempts_app cs1 cs2 :
  unlink_attempts (cs1 ++ cs2) = unlink_attempts cs1 ++ unlink_attempts cs2.
Proof. apply omap_app. Qed.

Lemma mkstemp_paths_bodies items : ∀ i,
  mkstemp_paths (body_calls i items) = items.*1.
Proof.
  induction items as [|[path body] items IH]; intros i; [done|].
  cbn. f_equal. apply IH.
Qed.

Lemma unlink_attempts_bodies items : ∀ i,
  unlink_attempts (body_calls i items) = [].
Proof.
  induction items as [|[path body] items IH]; intros i; [done|].
  cbn. apply IH.
Qed.

Lemma mkstemp_paths_optional prefix o x :
  mkstemp_paths (optional_calls prefix o x) = option_list o.
Proof. by destruct o. Qed.

Lemma mkstemp_paths_staging header footer hp fp ps (bodies : list bytes) pdf :
  length ps = length bodies →
  mkstemp_paths (staging_calls header footer hp fp (zip ps bodies) pdf)
  = option_list hp ++ option_list fp ++ ps ++ [pdf].
Proof.
  intros Hlen. unfold staging_calls.
  rewrite !mkstemp_paths_app, !mkstemp_paths_optional, mkstemp_paths_bodies.
  rewrite fst_zip by lia. done.
Qed.

Lemma unlink_attempts_staging header footer hp fp items pdf :
  unlink_attempts (staging_calls header footer hp fp items pdf) = [].
Proof.
  unfold staging_calls.
  rewrite !unlink_attempts_app, unlink_attempts_bodies.
  by destruct hp, fp.
Qed.

Lemma unlink_attempts_unlinks (attempts : list (string * bool)) :
  unlink_attempts (uncurry SysUnlink <$> attempts) = attempts.*1.
Proof.
  induction attempts as [|[path flag] attempts IH]; [done|].
  cbn. f_equal. apply IH.
Qed.

Lemma mkstemp_paths_unlinks (attempts : list (string * bool)) :
  mkstemp_paths (uncurry SysUnlink <$> attempts) = [].
Proof.
  induction attempts as [|[path flag] attempts IH]; [done|]. apply IH.
Qed.

Lemma body_calls_lookup items : ∀ i k path body,
  items !! k = Some (path, body) →
  SysMkstemp ".html" ("report.body.tmp." +:+ pretty (i + k)%nat +:+ ".") path
    ∈ body_calls i items
  ∧ SysWrite path body ∈ body_calls i items.
Proof.
  induction items as [|[p b] items IH]; intros i k path body Hk; [done|].
  destruct k as [|k].
  - injection Hk as -> ->. rewrite Nat.add_0_r. cbn.
    split; [by left|]. right. by left.
  - cbn in Hk. destruct (IH (S i) k path body Hk) as [Hm Hw].
    replace (i + S k)%nat with (S i + k)%nat by lia.
    cbn [body_calls]. split; right; right; done.
Qed.

Lemma has_slash_append a b : has_slash (a +:+ String "/" b) = true.
Proof.
  induction a as [|c a IH]; [done|].
  change (Ascii.eqb c "/" || has_slash (a +:+ String "/" b) = true).
  rewrite IH. apply orb_true_r.
Qed.

Lemma temp_name_has_slash suffix prefix path :
  temp_name suffix prefix path → has_slash path = true.
Proof. intros [random ->]. apply (has_slash_append gettempdir). Qed.

End facts.

(** * The claims *)

Section claims.
Context `{Platform}.

(** C2.  [_run_wkhtmltopdf] raises a [UserError] exactly when the return
    code of the renderer is neither 0 nor 1.  For the codes 0 and 1 it
    returns the content of the file the renderer left at the output path;
    when the renderer left none, the [OSError] of [open] on that path is
    raised instead. *)
Theorem user_error_iff_fatal_returncode
    bodies header footer landscape spa svs w s w1 :
  stage_inputs bodies header footer w = (Return s, w1) →
  let argv :=
    wkhtmltopdf_command
      (_build_wkhtmltopdf_args get_paperformat landscape spa svs) s in
  let process := run_process argv (files w1) in
  let result := (_run_wkhtmltopdf bodies header footer landscape spa svs w).1 in
  ((∃ message, result = Raise (UserError message))
   ↔ returncode process ∉ [0; 1]) ∧
  (returncode process ∈ [0; 1] →
   result = match files_after process !! pdf_report_path s with
            | Some content => Return content
            | None => Raise (OSError (pdf_report_path s))
            end).
Proof.
  intros Hstage argv process result. subst result.
  rewrite (run_cases _ _ _ _ _ _ _ _ _ Hstage). fold argv process.
  case_bool_decide as Hrc.
  - split; [split; eauto|]. intros Hin. by destruct Hrc.
  - rewrite collect_run. cbn [files rendered].
    split.
    + split; [|done]. intros [message Hm].
      destruct (files_after process !! pdf_report_path s); [|by inversion Hm].
      destruct (for_each _ _ _ _) as [? ?]. by inversion Hm.
    + intros _. destruct (files_after process !! pdf_report_path s); [|done].
      by destruct (for_each _ _ _ _) as [? ?].
Qed.


(** C4.  Among the fatal return codes, -11 alone selects the message about
    the memory limit; every other one selects the generic message.  The
    text raised is the selected template filled with the return code and
    the tail of standard error. *)
Theorem memory_limit_message_iff_minus_11
    bodies header footer landscape spa svs w s w1 :
  stage_inputs bodies header footer w = (Return s, w1) →
  let argv :=
    wkhtmltopdf_command
      (_build_wkhtmltopdf_args get_paperformat landscape spa svs) s in
  let process := run_process argv (files w1) in
  let result := (_run_wkhtmltopdf bodies header footer landscape spa svs w).1 in
  let tail := str_bytes (slice_from (-1000) (err process)) in
  returncode process ∉ [0; 1] →
  ∃ message,
    result = Raise (UserError message) ∧
    percent (failure_message (returncode process))
      [pretty (returncode process); tail] = Some message ∧
    (returncode process = -11 ↔
     failure_message (returncode process)
     = translate "Wkhtmltopdf failed (error code: %s). Memory limit too low or maximum file number of subprocess reached. Message : %s") ∧
    (returncode process ≠ -11 ↔
     failure_message (returncode process)
     = translate "Wkhtmltopdf failed (error code: %s). Message: %s") ∧
    (returncode process = -11 →
     message = "Wkhtmltopdf failed (error code: -11). Memory limit too low or maximum file number of subprocess reached. Message : " +:+ tail) ∧
    (returncode process ≠ -11 →
     message = "Wkhtmltopdf failed (error code: "
               +:+ pretty (returncode process) +:+ "). Message: " +:+ tail).
Proof.
  intros Hstage argv process result tail Hrc. subst result.
  rewrite (run_cases _ _ _ _ _ _ _ _ _ Hstage). fold argv process.
  rewrite bool_decide_eq_true_2 by done. cbn [fst]. fold tail.
  exists (failure_text (returncode process) tail).
  split; [done|]. split; [apply format_failure|].
  unfold failure_message, failure_text, translate.
  case_bool_decide as Hcode.
  - rewrite Hcode. repeat split; first [done|by intros []|idtac].
  - repeat split; first [done|by intros []|idtac].
Qed.

(** C5.  On the returning path an unlink that fails is recorded in the
    log and nothing is raised: the PDF content is returned all the same.
    The unlink of every temporary file that is locked or already gone
    fails. *)
Theorem unlink_failure_logged_not_raised
    bodies header footer landscape spa svs w s w1 content :
  stage_inputs bodies header footer w = (Return s, w1) →
  let argv :=
    wkhtmltopdf_command
      (_build_wkhtmltopdf_args get_paperformat landscape spa svs) s in
  let process := run_process argv (files w1) in
  let outcome := _run_wkhtmltopdf bodies header footer landscape spa svs w in
  returncode process ∈ [0; 1] →
  files_after process !! pdf_report_path s = Some content →
  outcome.1 = Return content ∧
  ∃ attempts,
    attempts.*1 = temporary_files s ∧
    calls outcome.2 = calls w1 ++ SysExec argv :: SysRead (pdf_report_path s)
                      :: (uncurry SysUnlink <$> attempts) ∧
    (∀ path, (path, false) ∈ attempts →
       removal_error path ∈ syslog outcome.2) ∧
    (∀ path, path ∈ temporary_files s →
       path ∈ locked w ∨ files_after process !! path = None →
       (path, false) ∈ attempts).
Proof.
  intros Hstage argv process outcome Hrc Hpdf. subst outcome.
  destruct (run_returns _ _ _ landscape spa svs _ _ _ _ Hstage Hrc Hpdf)
    as (w' & attempts & -> & Hpaths & Hcalls & Hlog & _ & _ & _ & _ & Href).
  cbn [fst snd]. split; [done|]. exists attempts.
  split; [done|]. split; [done|]. split; [|done].
  intros path Hin. rewrite Hlog. apply elem_of_app. right.
  by apply refused_logged.
Qed.

(** C6.  The method returns [content] exactly when the return code is 0
    or 1 and [content] is what the renderer left at the staged output
    path; the file is read after the renderer has run and before any
    temporary file is unlinked. *)
Theorem returns_produced_pdf
    bodies header footer landscape spa svs w s w1 content :
  stage_inputs bodies header footer w = (Return s, w1) →
  let argv :=
    wkhtmltopdf_command
      (_build_wkhtmltopdf_args get_paperformat landscape spa svs) s in
  let process := run_process argv (files w1) in
  let outcome := _run_wkhtmltopdf bodies header footer landscape spa svs w in
  (outcome.1 = Return content ↔
   returncode process ∈ [0; 1] ∧
   files_after process !! pdf_report_path s = Some content) ∧
  (outcome.1 = Return content →
   ∃ attempts,
     attempts.*1 = temporary_files s ∧
     calls outcome.2 = calls w1 ++ SysExec argv :: SysRead (pdf_report_path s)
                       :: (uncurry SysUnlink <$> attempts)).
Proof.
  intros Hstage argv process outcome.
  assert (Hiff : outcome.1 = Return content ↔
            returncode process ∈ [0; 1] ∧
            files_after process !! pdf_report_path s = Some content).
  { split.
    - subst outcome. rewrite (run_cases _ _ _ _ _ _ _ _ _ Hstage).
      fold argv process. case_bool_decide as Hrc; [done|].
      rewrite collect_run. cbn [files rendered].
      destruct (files_after process !! pdf_report_path s) as [c|]; [|done].
      destruct (for_each _ _ _ _) as [? ?]. intros [= ->].
      by split.
    - intros [Hrc Hpdf].
      destruct (run_returns _ _ _ landscape spa svs _ _ _ _ Hstage Hrc Hpdf)
        as (w' & attempts & Hrun & _). subst outcome. by rewrite Hrun. }
  split; [done|]. intros [Hrc Hpdf]%Hiff.
  destruct (run_returns _ _ _ landscape spa svs _ _ _ _ Hstage Hrc Hpdf)
    as (w' & attempts & Hrun & Hpaths & Hcalls & _).
  subst outcome. rewrite Hrun. by exists attempts.
Qed.

(** On a fatal return code the method stops at line 99: the world is the
    one the renderer left, no file has been read back or unlinked. *)
Lemma fatal_exit_skips_cleanup bodies header footer landscape spa svs w s w1 :
  stage_inputs bodies header footer w = (Return s, w1) →
  let argv :=
    wkhtmltopdf_command
      (_build_wkhtmltopdf_args get_paperformat landscape spa svs) s in
  let process := run_process argv (files w1) in
  let w' := (_run_wkhtmltopdf bodies header footer landscape spa svs w).2 in
  returncode process ∉ [0; 1] →
  files w' = files_after process ∧
  calls w' = calls w1 ++ [SysExec argv] ∧
  unlink_attempts (calls w') = unlink_attempts (calls w).
Proof.
  intros Hstage argv process w' Hrc. subst w'.
  rewrite (run_cases _ _ _ _ _ _ _ _ _ Hstage). fold argv process.
  rewrite bool_decide_eq_true_2 by done. cbn [snd files calls rendered].
  split; [done|]. split; [done|].
  destruct (stage_inputs_inv _ _ _ _ _ _ Hstage)
    as (hp & fp & _ & _ & _ & _ & _ & _ & Hk & _).
  rewrite Hk, !unlink_attempts_app, unlink_attempts_staging.
  by rewrite !app_nil_r.
Qed.

(** The trace of the whole method begins with the staging and the one
    execution of the command line. *)
Lemma run_executes_command bodies header footer landscape spa svs w s w1 :
  stage_inputs bodies header footer w = (Return s, w1) →
  let argv :=
    wkhtmltopdf_command
      (_build_wkhtmltopdf_args get_paperformat landscape spa svs) s in
  ∃ rest,
    calls (_run_wkhtmltopdf bodies header footer landscape spa svs w).2
    = calls w1 ++ SysExec argv :: rest.
Proof.
  intros Hstage argv.
  rewrite (run_cases _ _ _ _ _ _ _ _ _ Hstage). fold argv.
  case_bool_decide as Hrc; [by exists []|].
  rewrite collect_run. cbn [files rendered].
  destruct (files_after _ !! pdf_report_path s) as [content|];
    [|by exists []].
  destruct (cleanup_spec (temporary_files s)
              (add_call (SysRead (pdf_report_path s))
                 (rendered w1 argv (run_process argv (files w1)))))
    as (w' & attempts & -> & _ & Hcalls & _).
  cbn [snd]. rewrite Hcalls. cbn [calls add_call rendered].
  rewrite <- !app_assoc. by eexists.
Qed.

(** C7.  One [.html] file is staged per element of [bodies], in order,
    under a fresh name of its own that carries the element's index, and
    holds the element's bytes when the renderer starts.  The renderer is
    started once, on the binary, the paper format arguments, the
    header and footer arguments, the body files in order, and the output
    path. *)
Theorem bodies_staged_and_command_line
    bodies header footer landscape spa svs w s w1 :
  stage_inputs bodies header footer w = (Return s, w1) →
  let command_args :=
    _build_wkhtmltopdf_args get_paperformat landscape spa svs in
  let outcome := _run_wkhtmltopdf bodies header footer landscape spa svs w in
  length (paths s) = length bodies ∧
  NoDup (paths s) ∧
  (∀ i path body,
     paths s !! i = Some path → bodies !! i = Some body →
     files w !! path = None ∧ files w1 !! path = Some body ∧
     temp_name ".html" ("report.body.tmp." +:+ pretty i +:+ ".") path) ∧
  (∃ hp fp,
     calls w1 = calls w ++ optional_calls "report.header.tmp." hp header
                ++ optional_calls "report.footer.tmp." fp footer
                ++ body_calls 0 (zip (paths s) bodies)
                ++ [SysMkstemp ".pdf" "report.tmp." (pdf_report_path s)]) ∧
  (∃ rest,
     calls outcome.2
     = calls w1
       ++ SysExec ([_get_wkhtmltopdf_bin] ++ command_args
                   ++ files_command_args s ++ paths s ++ [pdf_report_path s])
       :: rest).
Proof.
  intros Hstage command_args outcome.
  destruct (stage_inputs_inv _ _ _ _ _ _ Hstage)
    as (hp & fp & Hfca & Htf & Hh & Hf & Hlen & Hc & Hk & Hn).
  destruct Hc as (Hnd & Hin & _).
  split; [done|]. split; [|split; [|split]].
  - rewrite !fmap_app, fst_zip in Hnd by lia.
    apply NoDup_app in Hnd as (_ & _ & Hnd).
    apply NoDup_app in Hnd as (_ & _ & Hnd).
    by apply NoDup_app in Hnd as (Hnd & _).
  - intros i path body Hp Hb.
    assert (Hz : zip (paths s) bodies !! i = Some (path, body)).
    { apply lookup_zip_with_Some. eauto. }
    destruct (Hin path body) as [Hfree Hheld].
    { rewrite !elem_of_app. right. right. left.
      apply list_elem_of_lookup. eauto. }
    split; [done|]. split; [done|].
    destruct (body_calls_lookup _ 0 _ _ _ Hz) as [Hm _].
    rewrite Forall_forall in Hn.
    apply (Hn (SysMkstemp ".html"
                 ("report.body.tmp." +:+ pretty (0 + i)%nat +:+ ".") path)).
    unfold staging_calls. rewrite !elem_of_app. right. right. by left.
  - exists hp, fp. exact Hk.
  - apply (run_executes_command _ _ _ landscape spa svs _ _ _ Hstage).
Qed.

(** What the two optional blocks of lines 51 to 62 leave behind. *)
Lemma optional_files_spec bodies header footer w s w1 :
  stage_inputs bodies header footer w = (Return s, w1) →
  ∃ hp fp,
    (is_Some hp ↔ truthy header = true) ∧
    (is_Some fp ↔ truthy footer = true) ∧
    files_command_args s
      = flag_args "--header-html" hp ++ flag_args "--footer-html" fp ∧
    ("--header-html" ∈ files_command_args s ↔ truthy header = true) ∧
    ("--footer-html" ∈ files_command_args s ↔ truthy footer = true) ∧
    calls w1 = calls w ++ optional_calls "report.header.tmp." hp header
               ++ optional_calls "report.footer.tmp." fp footer
               ++ body_calls 0 (zip (paths s) bodies)
               ++ [SysMkstemp ".pdf" "report.tmp." (pdf_report_path s)] ∧
    (∀ path, hp = Some path →
       files w !! path = None ∧ files w1 !! path = header ∧
       path ∈ temporary_files s ∧
       temp_name ".html" "report.header.tmp." path) ∧
    (∀ path, fp = Some path →
       files w !! path = None ∧ files w1 !! path = footer ∧
       path ∈ temporary_files s ∧
       temp_name ".html" "report.footer.tmp." path).
Proof.
  intros Hstage.
  destruct (stage_inputs_inv _ _ _ _ _ _ Hstage)
    as (hp & fp & Hfca & Htf & Hh & Hf & Hlen & Hc & Hk & Hn).
  destruct Hc as (_ & Hin & _).
  assert (Hhp : ∀ path, hp = Some path →
            files w !! path = None ∧ files w1 !! path = header ∧
            path ∈ temporary_files s ∧
            temp_name ".html" "report.header.tmp." path).
  { intros path ->.
    destruct (Hin path (default [] header)) as [Hfree Hheld];
      [rewrite !elem_of_app; left; by left|].
    assert (truthy header = true) as Ht by (apply Hh; eauto).
    destruct header as [[|b h]|]; try done.
    split; [done|]. split; [done|]. split.
    - rewrite Htf. by left.
    - rewrite Forall_forall in Hn.
      apply (Hn (SysMkstemp ".html" "report.header.tmp." path)).
      unfold staging_calls. rewrite !elem_of_app. left. by left. }
  assert (Hfp : ∀ path, fp = Some path →
            files w !! path = None ∧ files w1 !! path = footer ∧
            path ∈ temporary_files s ∧
            temp_name ".html" "report.footer.tmp." path).
  { intros path ->.
    destruct (Hin path (default [] footer)) as [Hfree Hheld];
      [rewrite !elem_of_app; right; left; by left|].
    assert (truthy footer = true) as Ht by (apply Hf; eauto).
    destruct footer as [[|b h]|]; try done.
    split; [done|]. split; [done|]. split.
    - rewrite Htf, !elem_of_app. right. left. by left.
    - rewrite Forall_forall in Hn.
      apply (Hn (SysMkstemp ".html" "report.footer.tmp." path)).
      unfold staging_calls. rewrite !elem_of_app. right. left. by left. }
  exists hp, fp. split; [done|]. split; [done|]. split; [done|].
  split; [|split; [|done]].
  - rewrite Hfca, <- Hh. split.
    + intros [Hin'|Hin']%elem_of_app;
        [destruct hp; [by eexists|by apply elem_of_nil in Hin']|].
      destruct fp as [path|]; [|by apply elem_of_nil in Hin'].
      destruct (Hfp path eq_refl) as (_ & _ & _ & Hname).
      apply temp_name_has_slash in Hname.
      apply elem_of_cons in Hin' as [?|Hin']; [done|].
      apply list_elem_of_singleton in Hin'. by subst path.
    + intros [path ->]. by left.
  - rewrite Hfca, <- Hf. split.
    + intros [Hin'|Hin']%elem_of_app;
        [|destruct fp; [by eexists|by apply elem_of_nil in Hin']].
      destruct hp as [path|]; [|by apply elem_of_nil in Hin'].
      destruct (Hhp path eq_refl) as (_ & _ & _ & Hname).
      apply temp_name_has_slash in Hname.
      apply elem_of_cons in Hin' as [?|Hin']; [done|].
      apply list_elem_of_singleton in Hin'. by subst path.
    + intros [path ->]. apply elem_of_app. right. by left.
Qed.

(** Every temporary file has a name with a slash in it. *)
Lemma named_paths_have_slash cs :
  Forall named_call cs → ∀ p, p ∈ mkstemp_paths cs → has_slash p = true.
Proof.
  induction 1 as [|c cs Hc _ IH]; intros p Hp; [by apply elem_of_nil in Hp|].
  destruct c as [sfx pfx path| | | |]; try (by apply IH).
  change (p ∈ path :: mkstemp_paths cs) in Hp.
  apply elem_of_cons in Hp as [->|Hp]; [|by apply IH].
  by apply (temp_name_has_slash sfx pfx).
Qed.

Lemma temporary_files_have_slash bodies header footer w s w1 :
  stage_inputs bodies header footer w = (Return s, w1) →
  ∀ p, p ∈ temporary_files s → has_slash p = true.
Proof.
  intros Hstage p Hp.
  destruct (stage_inputs_inv _ _ _ _ _ _ Hstage)
    as (hp & fp & _ & Htf & _ & _ & Hlen & _ & _ & Hn).
  apply (named_paths_have_slash _ Hn).
  by rewrite mkstemp_paths_staging, <- Htf.
Qed.

(** C8.  A header file is staged and its option put on the command line
    the renderer is started with exactly when the header is truthy, and
    likewise for the footer.  A staged file has a fresh [.html] name, holds
    the argument's bytes and is on the list of temporary files; without it
    the staging makes no call for it and the part of the command line the
    method builds does not hold the option. *)
Theorem header_footer_staged_iff_truthy
    bodies header footer landscape spa svs w s w1 :
  stage_inputs bodies header footer w = (Return s, w1) →
  let command_args :=
    _build_wkhtmltopdf_args get_paperformat landscape spa svs in
  let outcome := _run_wkhtmltopdf bodies header footer landscape spa svs w in
  ∃ hp fp,
    (is_Some hp ↔ truthy header = true) ∧
    (is_Some fp ↔ truthy footer = true) ∧
    files_command_args s
      = flag_args "--header-html" hp ++ flag_args "--footer-html" fp ∧
    ("--header-html" ∈ files_command_args s ↔ truthy header = true) ∧
    ("--footer-html" ∈ files_command_args s ↔ truthy footer = true) ∧
    calls w1 = calls w ++ optional_calls "report.header.tmp." hp header
               ++ optional_calls "report.footer.tmp." fp footer
               ++ body_calls 0 (zip (paths s) bodies)
               ++ [SysMkstemp ".pdf" "report.tmp." (pdf_report_path s)] ∧
    (∀ path, hp = Some path →
       files w !! path = None ∧ files w1 !! path = header ∧
       path ∈ temporary_files s ∧
       temp_name ".html" "report.header.tmp." path) ∧
    (∀ path, fp = Some path →
       files w !! path = None ∧ files w1 !! path = footer ∧
       path ∈ temporary_files s ∧
       temp_name ".html" "report.footer.tmp." path) ∧
    (∃ rest,
       calls outcome.2
       = calls w1
         ++ SysExec ([find_in_path "wkhtmltopdf"] ++ command_args
                     ++ flag_args "--header-html" hp
                     ++ flag_args "--footer-html" fp
                     ++ paths s ++ [pdf_report_path s])
         :: rest) ∧
    ("--header-html"
       ∈ flag_args "--header-html" hp ++ flag_args "--footer-html" fp
         ++ paths s ++ [pdf_report_path s]
     ↔ truthy header = true) ∧
    ("--footer-html"
       ∈ flag_args "--header-html" hp ++ flag_args "--footer-html" fp
         ++ paths s ++ [pdf_report_path s]
     ↔ truthy footer = true).
Proof.
  intros Hstage command_args outcome.
  destruct (optional_files_spec _ _ _ _ _ _ Hstage)
    as (hp & fp & Hh & Hf & Hfca & Hhead & Hfoot & Hk & Hhp & Hfp).
  destruct (stage_inputs_inv _ _ _ _ _ _ Hstage)
    as (hp' & fp' & _ & Htf & _).
  pose proof (temporary_files_have_slash _ _ _ _ _ _ Hstage) as Hslash.
  assert (Htemp : ∀ flag, has_slash flag = false →
            flag ∉ paths s ++ [pdf_report_path s]).
  { intros flag Hflag Hin.
    assert (flag ∈ temporary_files s) as Hin'
      by (rewrite Htf, !elem_of_app; apply elem_of_app in Hin; tauto).
    apply Hslash in Hin'. congruence. }
  exists hp, fp.
  split; [done|]. split; [done|]. split; [done|]. split; [done|].
  split; [done|]. split; [done|]. split; [done|]. split; [done|].
  split; [|split].
  - destruct (run_executes_command _ _ _ landscape spa svs _ _ _ Hstage)
      as [rest Hrest].
    exists rest. subst outcome. rewrite Hrest.
    unfold wkhtmltopdf_command, _get_wkhtmltopdf_bin. fold command_args.
    by rewrite Hfca, <- !app_assoc.
  - split.
    + rewrite app_assoc, <- Hfca. intros [Hin|Hin]%elem_of_app;
        [by apply Hhead|by apply Htemp in Hin].
    + intros Hin%Hhead. rewrite app_assoc, <- Hfca. apply elem_of_app. by left.
  - split.
    + rewrite app_assoc, <- Hfca. intros [Hin|Hin]%elem_of_app;
        [by apply Hfoot|by apply Htemp in Hin].
    + intros Hin%Hfoot. rewrite app_assoc, <- Hfca. apply elem_of_app. by left.
Qed.

(** C9.  An empty header, or an empty footer, is treated exactly as an
    absent one: the method runs identically, no option is passed for it and
    the staging makes no call for it. *)
Theorem empty_header_footer_as_none
    bodies header footer landscape spa svs w :
  _run_wkhtmltopdf bodies (Some []) footer landscape spa svs w
    = _run_wkhtmltopdf bodies None footer landscape spa svs w ∧
  _run_wkhtmltopdf bodies header (Some []) landscape spa svs w
    = _run_wkhtmltopdf bodies header None landscape spa svs w ∧
  (∃ s w1 fp,
     stage_inputs bodies (Some []) footer w = (Return s, w1) ∧
     ("--header-html" ∉ files_command_args s) ∧
     temporary_files s = option_list fp ++ paths s ++ [pdf_report_path s] ∧
     calls w1 = calls w ++ optional_calls "report.footer.tmp." fp footer
                ++ body_calls 0 (zip (paths s) bodies)
                ++ [SysMkstemp ".pdf" "report.tmp." (pdf_report_path s)]) ∧
  (∃ s w1 hp,
     stage_inputs bodies header (Some []) w = (Return s, w1) ∧
     ("--footer-html" ∉ files_command_args s) ∧
     temporary_files s = option_list hp ++ paths s ++ [pdf_report_path s] ∧
     calls w1 = calls w ++ optional_calls "report.header.tmp." hp header
                ++ body_calls 0 (zip (paths s) bodies)
                ++ [SysMkstemp ".pdf" "report.tmp." (pdf_report_path s)]).
Proof.
  split; [reflexivity|]. split.
  { unfold _run_wkhtmltopdf, stage_inputs. by destruct (truthy header). }
  split.
  - destruct (stage_inputs_spec bodies (Some []) footer w)
      as (hp & fp & ps & pdf & w1 & Hrun & _).
    destruct (stage_inputs_inv _ _ _ _ _ _ Hrun)
      as (hp' & fp' & _ & Htf & Hh & _ & _ & _ & Hk & _).
    destruct (optional_files_spec _ _ _ _ _ _ Hrun)
      as (_ & _ & _ & _ & _ & Hflag & _).
    eexists _, w1, fp'. split; [exact Hrun|].
    split; [rewrite Hflag; by intros ?|].
    destruct hp' as [path|];
      [pose proof (proj1 Hh (mk_is_Some _ _ eq_refl)) as Hx; by cbn in Hx|].
    split; [exact Htf|exact Hk].
  - destruct (stage_inputs_spec bodies header (Some []) w)
      as (hp & fp & ps & pdf & w1 & Hrun & _).
    destruct (stage_inputs_inv _ _ _ _ _ _ Hrun)
      as (hp' & fp' & _ & Htf & _ & Hf & _ & _ & Hk & _).
    destruct (optional_files_spec _ _ _ _ _ _ Hrun)
      as (_ & _ & _ & _ & _ & _ & Hflag & _).
    eexists _, w1, hp'. split; [exact Hrun|].
    split; [rewrite Hflag; by intros ?|].
    destruct fp' as [path|];
      [pose proof (proj1 Hf (mk_is_Some _ _ eq_refl)) as Hx; by cbn in Hx|].
    split; [exact Htf|exact Hk].
Qed.

(** C10.  On the returning path [unlink] is called once on every temporary
    file, in the order the files were created, whatever the outcome of the
    other calls; every temporary file that is not locked is gone in the
    end, and the locks and all other files are as the renderer left
    them. *)
Theorem cleanup_attempts_every_file
    bodies header footer landscape spa svs w s w1 content :
  stage_inputs bodies header footer w = (Return s, w1) →
  let argv :=
    wkhtmltopdf_command
      (_build_wkhtmltopdf_args get_paperformat landscape spa svs) s in
  let process := run_process argv (files w1) in
  let w' := (_run_wkhtmltopdf bodies header footer landscape spa svs w).2 in
  returncode process ∈ [0; 1] →
  files_after process !! pdf_report_path s = Some content →
  mkstemp_paths (calls w') = mkstemp_paths (calls w) ++ temporary_files s ∧
  unlink_attempts (calls w') = unlink_attempts (calls w) ++ temporary_files s ∧
  (∃ attempts,
     attempts.*1 = temporary_files s ∧
     calls w' = calls w1 ++ SysExec argv :: SysRead (pdf_report_path s)
                :: (uncurry SysUnlink <$> attempts)) ∧
  (∀ path, path ∈ temporary_files s → path ∉ locked w →
     files w' !! path = None) ∧
  (∀ path, path ∉ temporary_files s →
     files w' !! path = files_after process !! path).
Proof.
  intros Hstage argv process w' Hrc Hpdf. subst w'.
  destruct (run_returns _ _ _ landscape spa svs _ _ _ _ Hstage Hrc Hpdf)
    as (w' & attempts & -> & Hpaths & Hcalls & _ & _ & Hgone & _ & Hframe & _).
  destruct (stage_inputs_inv _ _ _ _ _ _ Hstage)
    as (hp & fp & _ & Htf & _ & _ & Hlen & _ & Hk & _).
  cbn [snd]. fold argv in Hcalls. rewrite Hcalls, Hk.
  split; [|split; [|split; [|split]]].
  - rewrite !mkstemp_paths_app, mkstemp_paths_staging by done.
    change (mkstemp_paths (SysExec argv :: SysRead (pdf_report_path s)
                           :: (uncurry SysUnlink <$> attempts)))
      with (mkstemp_paths (uncurry SysUnlink <$> attempts)).
    by rewrite mkstemp_paths_unlinks, app_nil_r, Htf.
  - rewrite !unlink_attempts_app, unlink_attempts_staging.
    change (unlink_attempts (SysExec argv :: SysRead (pdf_report_path s)
                             :: (uncurry SysUnlink <$> attempts)))
      with (unlink_attempts (uncurry SysUnlink <$> attempts)).
    by rewrite unlink_attempts_unlinks, Hpaths, app_nil_r.
  - by exists attempts.
  - done.
  - done.
Qed.

End claims.

(** * Further properties of the method *)

Section further.
Context `{Platform}.

(** The command lines of the renderer runs of a trace, in order. *)
Definition exec_calls (cs : list syscall) : list (list string) :=
  omap (λ c, match c with SysExec argv => Some argv | _ => None end) cs.

Lemma exec_calls_app cs1 cs2 :
  exec_calls (cs1 ++ cs2) = exec_calls cs1 ++ exec_calls cs2.
Proof. apply omap_app. Qed.

Lemma exec_calls_bodies items : ∀ i, exec_calls (body_calls i items) = [].
Proof.
  induction items as [|[path body] items IH]; intros i; [done|]. apply IH.
Qed.

Lemma exec_calls_staging header footer hp fp items pdf :
  exec_calls (staging_calls header footer hp fp items pdf) = [].
Proof.
  unfold staging_calls. rewrite !exec_calls_app, exec_calls_bodies.
  by destruct hp, fp.
Qed.

Lemma exec_calls_unlinks (attempts : list (string * bool)) :
  exec_calls (uncurry SysUnlink <$> attempts) = [].
Proof.
  induction attempts as [|[path flag] attempts IH]; [done|]. apply IH.
Qed.

Lemma staged_items_paths header footer hp fp ps (bodies : list bytes) pdf :
  length ps = length bodies →
  (optional_items hp header ++ optional_items fp footer
   ++ zip ps bodies ++ [(pdf, [])]).*1
  = option_list hp ++ option_list fp ++ ps ++ [pdf].
Proof.
  intros Hlen. rewrite !fmap_app, fst_zip by lia. by destruct hp, fp.
Qed.

(** What the staging does to the world, in terms of the list of temporary
    files alone. *)
Lemma stage_inputs_frame bodies header footer w s w1 :
  stage_inputs bodies header footer w = (Return s, w1) →
  NoDup (temporary_files s) ∧
  (∀ p, p ∈ temporary_files s →
     files w !! p = None ∧ is_Some (files w1 !! p)) ∧
  (∀ q, q ∉ temporary_files s → files w1 !! q = files w !! q) ∧
  locked w1 = locked w ∧ syslog w1 = syslog w ∧
  files w1 !! pdf_report_path s = Some [].
Proof.
  intros Hstage.
  destruct (stage_inputs_inv _ _ _ _ _ _ Hstage)
    as (hp & fp & _ & Htf & _ & _ & Hlen & Hc & _ & _).
  destruct Hc as (Hnd & Hin & Hfr & Hl & Hs).
  pose proof (staged_items_paths header footer hp fp (paths s) bodies
                (pdf_report_path s) Hlen) as Hpaths.
  rewrite Hpaths, <- Htf in Hnd, Hfr.
  split; [done|]. split; [|split; [done|split; [done|split; [done|]]]].
  - intros p Hp. rewrite Htf, <- Hpaths in Hp.
    apply list_elem_of_fmap in Hp as ([p' d] & -> & Hitem).
    destruct (Hin _ _ Hitem) as [Hfree Hheld]. split; [done|]. by eexists.
  - apply (Hin (pdf_report_path s) []).
    rewrite !elem_of_app. right. right. right. by left.
Qed.

(** The loop of lines 110 to 114 on a list without repetition: an unlink is
    refused exactly for the paths that are locked or absent. *)
Lemma cleanup_refusals tf : ∀ w, NoDup tf → ∃ w' attempts,
  for_each tf remove_file tt w = (Return tt, w') ∧
  attempts.*1 = tf ∧
  calls w' = calls w ++ (uncurry SysUnlink <$> attempts) ∧
  syslog w' = syslog w ++ (removal_error <$> refused attempts) ∧
  (∀ p, (p, false) ∈ attempts ↔
        p ∈ tf ∧ (p ∈ locked w ∨ files w !! p = None)).
Proof.
  induction tf as [|path tf IH]; intros w Hnd.
  - exists w, []. cbn. rewrite !app_nil_r. repeat (split; [done|]).
    intros p. split; [by intros ?%elem_of_nil|by intros [?%elem_of_nil _]].
  - apply NoDup_cons in Hnd as [Hfresh Hnd].
    cbn [for_each]. rewrite bind_run, remove_file_run.
    case_bool_decide as Hok.
    + destruct Hok as [Hsome Hfree].
      destruct (IH (mkWorld (delete path (files w)) (locked w) (syslog w)
                      (calls w ++ [SysUnlink path true])) Hnd)
        as (w' & attempts & Hrun & Hpaths & Hcalls & Hlog & Hiff).
      cbn [files locked syslog calls] in *.
      exists w', ((path, true) :: attempts). rewrite Hrun.
      split; [done|]. split; [cbn; by rewrite Hpaths|].
      split; [rewrite Hcalls, <- app_assoc; done|]. split; [done|].
      intros p. rewrite !elem_of_cons, Hiff. split.
      * intros [[=]|[Hin Hp]]. split; [by right|].
        rewrite lookup_delete_ne in Hp by (by intros ->). done.
      * intros [[->|Hin] Hp].
        { destruct Hp as [?|Hp]; [done|]. rewrite Hp in Hsome.
          by destruct Hsome. }
        right. split; [done|].
        rewrite lookup_delete_ne by (by intros ->). done.
    + destruct (IH (mkWorld (files w) (locked w)
                      (syslog w ++ [removal_error path])
                      (calls w ++ [SysUnlink path false])) Hnd)
        as (w' & attempts & Hrun & Hpaths & Hcalls & Hlog & Hiff).
      cbn [files locked syslog calls] in *.
      exists w', ((path, false) :: attempts). rewrite Hrun.
      split; [done|]. split; [cbn; by rewrite Hpaths|].
      split; [rewrite Hcalls, <- app_assoc; done|].
      split; [rewrite Hlog, <- app_assoc; done|].
      intros p. rewrite !elem_of_cons, Hiff. split.
      * intros [[= ->]|[Hin Hp]]; [|by auto].
        split; [by left|]. destruct (files w !! path) eqn:E; [|by right].
        left. apply dec_stable. intros Hfree. apply Hok. eauto.
      * intros [[->|Hin] Hp]; [by left|by right].
Qed.

(** X2.  When the return code is 0 or 1 but the renderer left no file at
    the output path, the method raises the [OSError] of [open] and stops
    there: nothing is unlinked, and the disk stays as the renderer left
    it. *)
Theorem missing_output_skips_cleanup
    bodies header footer landscape spa svs w s w1 :
  stage_inputs bodies header footer w = (Return s, w1) →
  let argv :=
    wkhtmltopdf_command
      (_build_wkhtmltopdf_args get_paperformat landscape spa svs) s in
  let process := run_process argv (files w1) in
  let outcome := _run_wkhtmltopdf bodies header footer landscape spa svs w in
  returncode process ∈ [0; 1] →
  files_after process !! pdf_report_path s = None →
  outcome.1 = Raise (OSError (pdf_report_path s)) ∧
  files outcome.2 = files_after process ∧
  calls outcome.2 = calls w1 ++ [SysExec argv] ∧
  unlink_attempts (calls outcome.2) = unlink_attempts (calls w).
Proof.
  intros Hstage argv process outcome Hrc Hpdf. subst outcome.
  rewrite (run_cases _ _ _ _ _ _ _ _ _ Hstage). fold argv process.
  rewrite bool_decide_eq_false_2 by (by intros []).
  rewrite collect_run. cbn [files rendered]. rewrite Hpdf.
  split; [done|]. split; [done|]. split; [done|].
  change (unlink_attempts (calls w1 ++ [SysExec argv])
          = unlink_attempts (calls w)).
  destruct (stage_inputs_inv _ _ _ _ _ _ Hstage)
    as (hp & fp & _ & _ & _ & _ & _ & _ & Hk & _).
  rewrite Hk, !unlink_attempts_app, unlink_attempts_staging.
  by rewrite !app_nil_r.
Qed.

(** X3.  On the returning path the method logs, after what was logged
    before the call: the command line, one INFO record per line of standard
    output, one per line of standard error, the return code, one WARNING
    with the whole standard error when it is not empty, and one ERROR per
    refused unlink. *)
Theorem returning_log bodies header footer landscape spa svs w s w1 content :
  stage_inputs bodies header footer w = (Return s, w1) →
  let argv :=
    wkhtmltopdf_command
      (_build_wkhtmltopdf_args get_paperformat landscape spa svs) s in
  let process := run_process argv (files w1) in
  let w' := (_run_wkhtmltopdf bodies header footer landscape spa svs w).2 in
  returncode process ∈ [0; 1] →
  files_after process !! pdf_report_path s = Some content →
  ∃ attempts,
    attempts.*1 = temporary_files s ∧
    calls w' = calls w1 ++ SysExec argv :: SysRead (pdf_report_path s)
               :: (uncurry SysUnlink <$> attempts) ∧
    syslog w'
    = syslog w
      ++ [(INFO, "[[ Wkhtmltopdf ]] command: " +:+ String.concat "" argv)]
      ++ ((λ line, (INFO, "[[ Wkhtmltopdf ]] out: " +:+ str_bytes line))
            <$> splitlines (out process))
      ++ ((λ line, (INFO, "[[ Wkhtmltopdf ]] err: " +:+ str_bytes line))
            <$> splitlines (err process))
      ++ [(INFO, "[[ Wkhtmltopdf ]] returncode: "
                 +:+ pretty (returncode process))]
      ++ (match err process with
          | [] => []
          | _ :: _ =>
              [(WARNING, "wkhtmltopdf: " +:+ str_bytes (err process))]
          end)
      ++ ((λ path, (ERROR, "Error when trying to remove file " +:+ path))
            <$> refused attempts).
Proof.
  intros Hstage argv process w' Hrc Hpdf. subst w'.
  destruct (run_returns _ _ _ landscape spa svs _ _ _ _ Hstage Hrc Hpdf)
    as (w' & attempts & -> & Hpaths & Hcalls & Hlog & _).
  destruct (stage_inputs_frame _ _ _ _ _ _ Hstage)
    as (_ & _ & _ & _ & Hs & _).
  exists attempts. split; [done|]. split; [done|].
  cbn [snd]. rewrite Hlog. cbn [syslog rendered]. fold argv process.
  rewrite bool_decide_eq_false_2 by (by intros []).
  rewrite Hs. unfold render_records, line_records.
  rewrite <- !app_assoc. by destruct (err process).
Qed.

(** X4.  On a fatal return code the method logs only INFO records (the
    command line, the lines of the two pipes, the return code): standard
    error is not logged as a warning on that path. *)
Theorem fatal_log bodies header footer landscape spa svs w s w1 :
  stage_inputs bodies header footer w = (Return s, w1) →
  let argv :=
    wkhtmltopdf_command
      (_build_wkhtmltopdf_args get_paperformat landscape spa svs) s in
  let process := run_process argv (files w1) in
  let w' := (_run_wkhtmltopdf bodies header footer landscape spa svs w).2 in
  returncode process ∉ [0; 1] →
  ∃ records,
    syslog w' = syslog w ++ records ∧
    Forall (λ record, record.1 = INFO) records ∧
    length records
    = (2 + length (splitlines (out process))
       + length (splitlines (err process)))%nat.
Proof.
  intros Hstage argv process w' Hrc. subst w'.
  rewrite (run_cases _ _ _ _ _ _ _ _ _ Hstage). fold argv process.
  rewrite bool_decide_eq_true_2 by done. cbn [snd syslog rendered].
  rewrite bool_decide_eq_true_2 by done. rewrite app_nil_r.
  destruct (stage_inputs_frame _ _ _ _ _ _ Hstage)
    as (_ & _ & _ & _ & Hs & _).
  exists (render_records argv process). rewrite Hs. split; [done|].
  unfold render_records, line_records. split.
  - rewrite !Forall_app. split; [by repeat constructor|].
    split; [by apply Forall_fmap, Forall_true|].
    split; [by apply Forall_fmap, Forall_true|by repeat constructor].
  - rewrite !length_app, !length_fmap. cbn. lia.
Qed.

(** X5.  The staging touches no file that existed before the call: every
    temporary file gets a name that was free, every other path keeps its
    content, and the output file exists and is empty when the renderer
    starts.  The staging logs nothing. *)
Theorem staging_keeps_existing_files bodies header footer w s w1 :
  stage_inputs bodies header footer w = (Return s, w1) →
  (∀ path, is_Some (files w !! path) →
     (path ∉ temporary_files s) ∧ files w1 !! path = files w !! path) ∧
  (∀ path, path ∈ temporary_files s →
     files w !! path = None ∧ is_Some (files w1 !! path)) ∧
  files w1 !! pdf_report_path s = Some [] ∧
  syslog w1 = syslog w.
Proof.
  intros Hstage.
  destruct (stage_inputs_frame _ _ _ _ _ _ Hstage)
    as (_ & Hnew & Hframe & _ & Hs & Hpdf).
  split; [|done].
  intros path [data Hdata].
  assert (Hout : path ∉ temporary_files s).
  { intros Hin. destruct (Hnew _ Hin) as [Hfree _]. congruence. }
  split; [done|]. by apply Hframe.
Qed.

(** X6.  The temporary files of one call are pairwise distinct, and there
    are as many as bodies, plus one for the output, plus one for a truthy
    header and one for a truthy footer. *)
Theorem temporary_files_distinct bodies header footer w s w1 :
  stage_inputs bodies header footer w = (Return s, w1) →
  NoDup (temporary_files s) ∧
  length (temporary_files s)
  = ((if truthy header then 1 else 0) + (if truthy footer then 1 else 0)
     + length bodies + 1)%nat.
Proof.
  intros Hstage.
  destruct (stage_inputs_frame _ _ _ _ _ _ Hstage) as (Hnd & _).
  split; [done|].
  destruct (stage_inputs_inv _ _ _ _ _ _ Hstage)
    as (hp & fp & _ & Htf & Hh & Hf & Hlen & _).
  rewrite Htf, !length_app, Hlen. cbn [length].
  assert (length (option_list hp) = if truthy header then 1 else 0)%nat
    as ->.
  { destruct hp as [p|], (truthy header) eqn:E; try done.
    - by pose proof (proj1 Hh (mk_is_Some _ _ eq_refl)).
    - by destruct (proj2 Hh eq_refl). }
  assert (length (option_list fp) = if truthy footer then 1 else 0)%nat
    as ->.
  { destruct fp as [p|], (truthy footer) eqn:E; try done.
    - by pose proof (proj1 Hf (mk_is_Some _ _ eq_refl)).
    - by destruct (proj2 Hf eq_refl). }
  lia.
Qed.

(** X7.  A run that returns, in which the renderer changed nothing but
    the output file and no temporary file is locked, leaves the disk
    exactly as it was before the call. *)
Theorem clean_run_restores_disk
    bodies header footer landscape spa svs w s w1 content :
  stage_inputs bodies header footer w = (Return s, w1) →
  let argv :=
    wkhtmltopdf_command
      (_build_wkhtmltopdf_args get_paperformat landscape spa svs) s in
  let process := run_process argv (files w1) in
  let outcome := _run_wkhtmltopdf bodies header footer landscape spa svs w in
  returncode process ∈ [0; 1] →
  files_after process = <[pdf_report_path s := content]> (files w1) →
  (∀ path, path ∈ temporary_files s → path ∉ locked w) →
  outcome.1 = Return content ∧ files outcome.2 = files w.
Proof.
  intros Hstage argv process outcome Hrc Hafter Hfree. subst outcome.
  assert (Hpdf : files_after process !! pdf_report_path s = Some content)
    by (rewrite Hafter; apply lookup_insert_eq).
  destruct (run_returns _ _ _ landscape spa svs _ _ _ _ Hstage Hrc Hpdf)
    as (w' & attempts & -> & _ & _ & _ & _ & Hgone & _ & Hframe & _).
  destruct (stage_inputs_frame _ _ _ _ _ _ Hstage)
    as (_ & Hnew & Hkeep & _).
  destruct (stage_inputs_inv _ _ _ _ _ _ Hstage)
    as (hp & fp & _ & Htf & _).
  split; [done|]. cbn [snd]. apply map_eq. intros path.
  destruct (decide (path ∈ temporary_files s)) as [Hin|Hout].
  - rewrite Hgone by auto. symmetry. by apply Hnew.
  - rewrite Hframe by done. fold argv process. rewrite Hafter.
    rewrite lookup_insert_ne; [by apply Hkeep|].
    intros <-. apply Hout. rewrite Htf, !elem_of_app.
    right. right. right. by left.
Qed.

(** X8.  In a call whose staging succeeds and whose renderer runs to its
    end, the renderer is started exactly once, after the staging, whatever
    its return code and whether or not the output file is there: neither
    the failure branch nor the cleanup starts it again.  The program is the
    one [find_in_path] gives for wkhtmltopdf and the output path is its
    last argument. *)
Theorem renderer_started_once bodies header footer landscape spa svs w s w1 :
  stage_inputs bodies header footer w = (Return s, w1) →
  let argv :=
    wkhtmltopdf_command
      (_build_wkhtmltopdf_args get_paperformat landscape spa svs) s in
  let w' := (_run_wkhtmltopdf bodies header footer landscape spa svs w).2 in
  exec_calls (calls w') = exec_calls (calls w) ++ [argv] ∧
  head argv = Some (find_in_path "wkhtmltopdf") ∧
  last argv = Some (pdf_report_path s).
Proof.
  intros Hstage argv w'. split; [|split].
  - subst w'.
    destruct (stage_inputs_inv _ _ _ _ _ _ Hstage)
      as (hp & fp & _ & _ & _ & _ & _ & _ & Hk & _).
    assert (Hstaged : exec_calls (calls w1) = exec_calls (calls w)).
    { by rewrite Hk, exec_calls_app, exec_calls_staging, app_nil_r. }
    rewrite (run_cases _ _ _ _ _ _ _ _ _ Hstage). fold argv.
    case_bool_decide as Hrc.
    { cbn [snd calls rendered]. by rewrite exec_calls_app, Hstaged. }
    rewrite collect_run. cbn [files rendered].
    destruct (files_after _ !! pdf_report_path s) as [content|].
    + destruct (cleanup_spec (temporary_files s)
                  (add_call (SysRead (pdf_report_path s))
                     (rendered w1 argv (run_process argv (files w1)))))
        as (w' & attempts & -> & _ & Hcalls & _).
      cbn [snd]. rewrite Hcalls. cbn [calls add_call rendered].
      rewrite !exec_calls_app, exec_calls_unlinks, Hstaged.
      by rewrite !app_nil_r.
    + cbn [snd calls rendered]. by rewrite exec_calls_app, Hstaged.
  - done.
  - unfold argv, wkhtmltopdf_command. rewrite !app_assoc. apply last_snoc.
Qed.

(** X9.  With no body at all the method still creates the output file and
    starts the renderer, on a command line that names no input page: the
    binary, the paper format arguments, the header and footer arguments
    and the output path. *)
Theorem no_bodies_still_renders header footer landscape spa svs w s w1 :
  stage_inputs [] header footer w = (Return s, w1) →
  let command_args :=
    _build_wkhtmltopdf_args get_paperformat landscape spa svs in
  let w' := (_run_wkhtmltopdf [] header footer landscape spa svs w).2 in
  paths s = [] ∧
  files w1 !! pdf_report_path s = Some [] ∧
  exec_calls (calls w')
  = exec_calls (calls w)
    ++ [[find_in_path "wkhtmltopdf"] ++ command_args
        ++ files_command_args s ++ [pdf_report_path s]].
Proof.
  intros Hstage command_args w'.
  destruct (stage_inputs_inv _ _ _ _ _ _ Hstage)
    as (hp & fp & _ & _ & _ & _ & Hlen & _).
  assert (Hnone : paths s = []) by (by apply nil_length_inv).
  destruct (stage_inputs_frame _ _ _ _ _ _ Hstage)
    as (_ & _ & _ & _ & _ & Hpdf).
  split; [done|]. split; [done|].
  subst w'.
  assert (Hexec : exec_calls (calls (_run_wkhtmltopdf [] header footer
                                      landscape spa svs w).2)
                  = exec_calls (calls w)
                    ++ [wkhtmltopdf_command command_args s]).
  { destruct (stage_inputs_inv _ _ _ _ _ _ Hstage)
      as (hp' & fp' & _ & _ & _ & _ & _ & _ & Hk & _).
    assert (Hstaged : exec_calls (calls w1) = exec_calls (calls w)).
    { by rewrite Hk, exec_calls_app, exec_calls_staging, app_nil_r. }
    rewrite (run_cases _ _ _ _ _ _ _ _ _ Hstage). fold command_args.
    case_bool_decide as Hrc.
    { cbn [snd calls rendered]. by rewrite exec_calls_app, Hstaged. }
    rewrite collect_run. cbn [files rendered].
    destruct (files_after _ !! pdf_report_path s) as [content|].
    + destruct (cleanup_spec (temporary_files s)
                  (add_call (SysRead (pdf_report_path s))
                     (rendered w1 (wkhtmltopdf_command command_args s)
                        (run_process (wkhtmltopdf_command command_args s)
                           (files w1)))))
        as (w' & attempts & -> & _ & Hcalls & _).
      cbn [snd]. rewrite Hcalls. cbn [calls add_call rendered].
      rewrite !exec_calls_app, exec_calls_unlinks, Hstaged.
      by rewrite !app_nil_r.
    + cbn [snd calls rendered]. by rewrite exec_calls_app, Hstaged. }
  rewrite Hexec. unfold wkhtmltopdf_command. by rewrite Hnone.
Qed.

(** X10.  On the returning path an unlink is refused exactly for the
    temporary files that are locked or that the renderer removed; when
    there is none, every unlink succeeds and no error is logged: the log
    is as line 104 left it. *)
Theorem unlink_refused_iff_locked_or_missing
    bodies header footer landscape spa svs w s w1 content :
  stage_inputs bodies header footer w = (Return s, w1) →
  let argv :=
    wkhtmltopdf_command
      (_build_wkhtmltopdf_args get_paperformat landscape spa svs) s in
  let process := run_process argv (files w1) in
  let w' := (_run_wkhtmltopdf bodies header footer landscape spa svs w).2 in
  returncode process ∈ [0; 1] →
  files_after process !! pdf_report_path s = Some content →
  ∃ attempts,
    attempts.*1 = temporary_files s ∧
    calls w' = calls w1 ++ SysExec argv :: SysRead (pdf_report_path s)
               :: (uncurry SysUnlink <$> attempts) ∧
    (∀ path, (path, false) ∈ attempts ↔
       path ∈ temporary_files s ∧
       (path ∈ locked w ∨ files_after process !! path = None)) ∧
    ((∀ path, path ∈ temporary_files s →
        (path ∉ locked w) ∧ is_Some (files_after process !! path)) →
     refused attempts = [] ∧
     syslog w' = syslog (rendered w1 argv process)).
Proof.
  intros Hstage argv process w' Hrc Hpdf. subst w'.
  rewrite (run_cases _ _ _ _ _ _ _ _ _ Hstage). fold argv process.
  rewrite bool_decide_eq_false_2 by (by intros []).
  rewrite collect_run. cbn [files rendered]. rewrite Hpdf.
  destruct (stage_inputs_frame _ _ _ _ _ _ Hstage)
    as (Hnd & _ & _ & Hlock & _).
  destruct (cleanup_refusals (temporary_files s)
              (add_call (SysRead (pdf_report_path s))
                 (rendered w1 argv process)) Hnd)
    as (w' & attempts & -> & Hpaths & Hcalls & Hlog & Hiff).
  cbn [files locked calls add_call snd] in *.
  change (locked (rendered w1 argv process)) with (locked w1) in Hiff.
  change (files (rendered w1 argv process)) with (files_after process)
    in Hiff.
  change (syslog (add_call (SysRead (pdf_report_path s))
                    (rendered w1 argv process)))
    with (syslog (rendered w1 argv process)) in Hlog.
  change (calls (rendered w1 argv process)) with (calls w1 ++ [SysExec argv])
    in Hcalls.
  rewrite Hlock in Hiff.
  exists attempts. split; [done|].
  split; [rewrite Hcalls, <- !app_assoc; done|]. split; [done|].
  intros Hfine.
  assert (Hnone : refused attempts = []);
    [|by rewrite Hlog, Hnone, app_nil_r].
  unfold refused.
  destruct (filter (λ a : string * bool, a.2 = false) attempts)
    as [|[path flag] rest] eqn:Efilter; [done|].
  assert (Hin : (path, flag) ∈ filter (λ a : string * bool, a.2 = false)
                                 attempts)
    by (rewrite Efilter; by left).
  apply list_elem_of_filter in Hin as [Hflag Hin]. cbn in Hflag. subst flag.
  apply Hiff in Hin as [Hin Hwhy].
  destruct (Hfine _ Hin) as [Hunlocked [data Hdata]].
  destruct Hwhy as [?|?]; [done|congruence].
Qed.

End further.

(** ** A concrete platform

    Temporary names are made fresh by length: the random part is longer
    than every name in use.  The renderer is a parameter of the instance. *)

Module Sample.

Fixpoint filler (n : nat) : string :=
  match n with
  | O => ""
  | S n' => String "x" (filler n')
  end.

Definition longest (fs : gmap string bytes) : nat :=
  max_list (String.length <$> (map_to_list fs).*1).

Definition sample_name (fs : gmap string bytes) (suffix prefix : string)
  : string :=
  "/tmp" +:+ "/" +:+ prefix +:+ filler (S (longest fs)) +:+ suffix.

Lemma length_append (s t : string) :
  String.length (s +:+ t) = (String.length s + String.length t)%nat.
Proof. induction s as [|c s IH]; simpl; [done|]. by rewrite IH. Qed.

Lemma filler_length n : String.length (filler n) = n.
Proof. induction n; simpl; congruence. Qed.

Lemma longest_bound fs name data :
  fs !! name = Some data → (String.length name ≤ longest fs)%nat.
Proof.
  intros Hin. apply max_list_elem_of_le.
  apply list_elem_of_fmap. exists name. split; [done|].
  apply list_elem_of_fmap. exists (name, data). split; [done|].
  by apply elem_of_map_to_list.
Qed.

Lemma sample_name_fresh fs suffix prefix :
  fs !! sample_name fs suffix prefix = None.
Proof.
  destruct (fs !! sample_name fs suffix prefix) as [data|] eqn:E; [|done].
  apply longest_bound in E. unfold sample_name in E.
  rewrite !length_append, filler_length in E. lia.
Qed.

Definition platform (program : list string → gmap string bytes → Completed)
  : Platform :=
  {| paperformat := unit;
     paperformat_args := unit;
     get_paperformat := tt;
     _build_wkhtmltopdf_args := λ _ landscape _ _,
       if landscape then ["--orientation"; "landscape"] else ["--quiet"];
     find_in_path := λ name, "/usr/bin/" +:+ name;
     gettempdir := "/tmp";
     mkstemp_name := sample_name;
     mkstemp_shape := λ fs suffix prefix,
       ex_intro _ (filler (S (longest fs))) eq_refl;
     mkstemp_fresh := sample_name_fresh;
     run_process := program |}.

(** A renderer that ends with [code], having written [stdout] and
    [stderr] to its pipes and, when [pdf] is given, [pdf] to the path that
    closes its command line. *)
Definition renderer (code : Z) (stdout stderr : bytes) (pdf : option bytes)
    (argv : list string) (fs : gmap string bytes) : Completed :=
  mkCompleted stdout stderr code
    (match pdf with
     | Some data => <[List.last argv "" := data]> fs
     | None => fs
     end).

Definition html_body : bytes := list_byte_of_string "<p>page</p>".
Definition html_header : bytes := list_byte_of_string "<header/>".
Definition pdf_bytes : bytes := list_byte_of_string "%PDF-1.4".

(** Nothing on disk, nothing locked. *)
Definition empty_world : World := mkWorld ∅ ∅ [] [].

(** Nothing on disk, and the name the header will get is locked. *)
Definition locked_world : World :=
  mkWorld ∅ {["/tmp/report.header.tmp.x.html"]} [] [].

(** The renderer succeeds / warns / is killed / fails. *)
Definition succeeds : Platform :=
  platform (renderer 0 [] [] (Some pdf_bytes)).
Definition fails : Platform :=
  platform (renderer 2 [] (list_byte_of_string "boom") None).
Definition out_of_memory : Platform :=
  platform (renderer (-11) [] (list_byte_of_string "killed") None).


(** The staging of one body under a header, from [empty_world] and from
    [locked_world]; it does not depend on the renderer. *)
Definition staged : Staged :=
  Eval vm_compute in
    match (stage_inputs (H := succeeds) [html_body] (Some html_header) None
             empty_world).1 with
    | Return s => s
    | Raise _ => mkStaged [] [] [] ""
    end.

Definition staged_world : World :=
  Eval vm_compute in
    (stage_inputs (H := succeeds) [html_body] (Some html_header) None
       empty_world).2.

Definition staged_locked_world : World :=
  Eval vm_compute in
    (stage_inputs (H := succeeds) [html_body] (Some html_header) None
       locked_world).2.

End Sample.



(** * Concrete runs *)

Section runs.
Import Sample.

(** The method on one body under a header, and the renderer it starts. *)
Definition run_on (P : Platform) (w : World) : outcome bytes * World :=
  _run_wkhtmltopdf (H := P) [html_body] (Some html_header) None
    false None false w.

Definition process_on (P : Platform) (w1 : World) : Completed :=
  run_process (Platform := P)
    (wkhtmltopdf_command (H := P)
       (_build_wkhtmltopdf_args (Platform := P) get_paperformat false None
          false)
       staged)
    (files w1).

Local Ltac decide_now :=
  match goal with
  | |- ?G => apply (@bool_decide_unpack G _); vm_compute; exact I
  end.

(** C1.  The renderer ends with code 2: the method raises, and the header
    file, the body file and the output file it created are still on disk;
    [unlink] was not called at all. *)
Theorem fatal_exit_leaves_temporary_files :
  let outcome := run_on fails empty_world in
  outcome.1
    = Raise (UserError
               "Wkhtmltopdf failed (error code: 2). Message: b'boom'") ∧
  mkstemp_paths (calls outcome.2) = temporary_files staged ∧
  unlink_attempts (calls outcome.2) = [] ∧
  (λ path, files outcome.2 !! path) <$> temporary_files staged
    = [Some html_header; Some html_body; Some []].
Proof. vm_compute. repeat split. Qed.

Lemma user_error_iff_fatal_returncode_witness :
  stage_inputs (H := fails) [html_body] (Some html_header) None empty_world
    = (Return staged, staged_world) ∧
  stage_inputs (H := succeeds) [html_body] (Some html_header) None empty_world
    = (Return staged, staged_world) ∧
  (returncode (process_on fails staged_world) ∉ [0; 1]) ∧
  (∃ message, (run_on fails empty_world).1 = Raise (UserError message)) ∧
  returncode (process_on succeeds staged_world) ∈ [0; 1] ∧
  (run_on succeeds empty_world).1 = Return pdf_bytes.
Proof.
  assert (Hf : stage_inputs (H := fails) [html_body] (Some html_header) None
                 empty_world = (Return staged, staged_world))
    by (vm_compute; reflexivity).
  assert (Hs : stage_inputs (H := succeeds) [html_body] (Some html_header)
                 None empty_world = (Return staged, staged_world))
    by (vm_compute; reflexivity).
  assert (Hbad : returncode (process_on fails staged_world) ∉ [0; 1])
    by decide_now.
  assert (Hok : returncode (process_on succeeds staged_world) ∈ [0; 1])
    by decide_now.
  split; [exact Hf|]. split; [exact Hs|]. split; [exact Hbad|].
  split; [|split; [exact Hok|]].
  - exact (proj2 (proj1 (user_error_iff_fatal_returncode (H := fails)
                           _ _ _ false None false _ _ _ Hf)) Hbad).
  - exact (proj2 (user_error_iff_fatal_returncode (H := succeeds)
                    _ _ _ false None false _ _ _ Hs) Hok).
Defined.


Lemma memory_limit_message_iff_minus_11_witness :
  stage_inputs (H := out_of_memory) [html_body] (Some html_header) None
    empty_world = (Return staged, staged_world) ∧
  (returncode (process_on out_of_memory staged_world) ∉ [0; 1]) ∧
  (run_on out_of_memory empty_world).1
  = Raise (UserError "Wkhtmltopdf failed (error code: -11). Memory limit too low or maximum file number of subprocess reached. Message : b'killed'").
Proof.
  assert (Hs : stage_inputs (H := out_of_memory) [html_body]
                 (Some html_header) None empty_world
               = (Return staged, staged_world))
    by (vm_compute; reflexivity).
  assert (Hr : returncode (process_on out_of_memory staged_world) ∉ [0; 1])
    by decide_now.
  split; [exact Hs|]. split; [exact Hr|].
  destruct (memory_limit_message_iff_minus_11 (H := out_of_memory)
              _ _ _ false None false _ _ _ Hs Hr)
    as (message & Hrun & _ & _ & _ & Htext & _).
  change (run_on out_of_memory empty_world).1
    with (_run_wkhtmltopdf (H := out_of_memory) [html_body]
            (Some html_header) None false None false empty_world).1.
  rewrite Hrun, (Htext eq_refl). reflexivity.
Defined.

Lemma unlink_failure_logged_not_raised_witness :
  stage_inputs (H := succeeds) [html_body] (Some html_header) None locked_world
    = (Return staged, staged_locked_world) ∧
  returncode (process_on succeeds staged_locked_world) ∈ [0; 1] ∧
  files_after (process_on succeeds staged_locked_world)
    !! pdf_report_path staged = Some pdf_bytes ∧
  (run_on succeeds locked_world).1 = Return pdf_bytes ∧
  removal_error "/tmp/report.header.tmp.x.html"
    ∈ syslog (run_on succeeds locked_world).2.
Proof.
  assert (Hs : stage_inputs (H := succeeds) [html_body] (Some html_header)
                 None locked_world = (Return staged, staged_locked_world))
    by (vm_compute; reflexivity).
  assert (Hr : returncode (process_on succeeds staged_locked_world) ∈ [0; 1])
    by decide_now.
  assert (Hp : files_after (process_on succeeds staged_locked_world)
                 !! pdf_report_path staged = Some pdf_bytes)
    by (vm_compute; reflexivity).
  split; [exact Hs|]. split; [exact Hr|]. split; [exact Hp|].
  destruct (unlink_failure_logged_not_raised (H := succeeds)
              _ _ _ false None false _ _ _ _ Hs Hr Hp)
    as (Hrun & attempts & _ & _ & Hlogged & Hrefused).
  split; [exact Hrun|].
  apply Hlogged, Hrefused; [decide_now|left; decide_now].
Defined.

Lemma returns_produced_pdf_witness :
  stage_inputs (H := succeeds) [html_body] (Some html_header) None empty_world
    = (Return staged, staged_world) ∧
  ((run_on succeeds empty_world).1 = Return pdf_bytes ↔
   returncode (process_on succeeds staged_world) ∈ [0; 1] ∧
   files_after (process_on succeeds staged_world) !! pdf_report_path staged
     = Some pdf_bytes) ∧
  (run_on succeeds empty_world).1 = Return pdf_bytes.
Proof.
  assert (Hs : stage_inputs (H := succeeds) [html_body] (Some html_header)
                 None empty_world = (Return staged, staged_world))
    by (vm_compute; reflexivity).
  split; [exact Hs|].
  destruct (returns_produced_pdf (H := succeeds)
              _ _ _ false None false _ _ _ pdf_bytes Hs) as [Hiff _].
  split; [exact Hiff|]. apply Hiff.
  split; [decide_now|vm_compute; reflexivity].
Defined.

Lemma bodies_staged_and_command_line_witness :
  stage_inputs (H := succeeds) [html_body] (Some html_header) None empty_world
    = (Return staged, staged_world) ∧
  length (paths staged) = 1%nat ∧
  (∃ path, paths staged = [path] ∧
           files staged_world !! path = Some html_body) ∧
  (∃ rest,
     calls (run_on succeeds empty_world).2
     = calls staged_world
       ++ SysExec (["/usr/bin/wkhtmltopdf"; "--quiet"]
                   ++ files_command_args staged ++ paths staged
                   ++ [pdf_report_path staged])
       :: rest).
Proof.
  assert (Hs : stage_inputs (H := succeeds) [html_body] (Some html_header)
                 None empty_world = (Return staged, staged_world))
    by (vm_compute; reflexivity).
  split; [exact Hs|].
  destruct (bodies_staged_and_command_line (H := succeeds)
              _ _ _ false None false _ _ _ Hs)
    as (Hlen & _ & Hheld & _ & Hexec).
  split; [exact Hlen|]. split; [|exact Hexec].
  eexists. split; [reflexivity|].
  exact (proj1 (proj2 (Hheld 0%nat _ html_body eq_refl eq_refl))).
Defined.

Lemma header_footer_staged_iff_truthy_witness :
  stage_inputs (H := succeeds) [html_body] (Some html_header) None empty_world
    = (Return staged, staged_world) ∧
  "--header-html" ∈ files_command_args staged ∧
  ("--footer-html" ∉ files_command_args staged) ∧
  (∃ rest,
     calls (run_on succeeds empty_world).2
     = calls staged_world
       ++ SysExec (["/usr/bin/wkhtmltopdf"; "--quiet"]
                   ++ files_command_args staged ++ paths staged
                   ++ [pdf_report_path staged])
       :: rest).
Proof.
  assert (Hs : stage_inputs (H := succeeds) [html_body] (Some html_header)
                 None empty_world = (Return staged, staged_world))
    by (vm_compute; reflexivity).
  split; [exact Hs|].
  destruct (header_footer_staged_iff_truthy (H := succeeds)
              _ _ _ false None false _ _ _ Hs)
    as (hp & fp & _ & _ & Hfca & Hhead & Hfoot & _ & _ & _ & Hexec & _).
  split; [by apply Hhead|]. split; [intros Hin%Hfoot; discriminate Hin|].
  destruct Hexec as [rest Hrest]. exists rest.
  rewrite Hfca, <- app_assoc. exact Hrest.
Defined.

Lemma cleanup_attempts_every_file_witness :
  stage_inputs (H := succeeds) [html_body] (Some html_header) None locked_world
    = (Return staged, staged_locked_world) ∧
  returncode (process_on succeeds staged_locked_world) ∈ [0; 1] ∧
  files_after (process_on succeeds staged_locked_world)
    !! pdf_report_path staged = Some pdf_bytes ∧
  unlink_attempts (calls (run_on succeeds locked_world).2)
    = temporary_files staged ∧
  (∀ path, path ∈ temporary_files staged → path ∉ locked locked_world →
     files (run_on succeeds locked_world).2 !! path = None).
Proof.
  assert (Hs : stage_inputs (H := succeeds) [html_body] (Some html_header)
                 None locked_world = (Return staged, staged_locked_world))
    by (vm_compute; reflexivity).
  assert (Hr : returncode (process_on succeeds staged_locked_world) ∈ [0; 1])
    by decide_now.
  assert (Hp : files_after (process_on succeeds staged_locked_world)
                 !! pdf_report_path staged = Some pdf_bytes)
    by (vm_compute; reflexivity).
  split; [exact Hs|]. split; [exact Hr|]. split; [exact Hp|].
  destruct (cleanup_attempts_every_file (H := succeeds)
              _ _ _ false None false _ _ _ _ Hs Hr Hp)
    as (_ & Hattempts & _ & Hgone & _).
  split; [exact Hattempts|exact Hgone].
Defined.

End runs.

(** * More concrete runs *)

Module Cases.
Import Sample.

(** A renderer that ends with 0 after removing its output file. *)
Definition vanishing : Platform :=
  platform (λ argv fs, mkCompleted [] [] 0 (delete (List.last argv "") fs)).

(** A renderer that ends with 1 after two lines on standard output and a
    warning on standard error. *)
Definition warns : Platform :=
  platform (renderer 1
              (list_byte_of_string "Loading" ++ [x0a]
               ++ list_byte_of_string "Done")
              (list_byte_of_string "Warning: blocked")
              (Some pdf_bytes)).


(** A disk that holds a file already. *)
Definition busy_world : World :=
  mkWorld {["/etc/hosts" := list_byte_of_string "127.0.0.1"]} ∅ [] [].

Definition staged_busy : Staged :=
  Eval vm_compute in
    match (stage_inputs (H := succeeds) [html_body] (Some html_header) None
             busy_world).1 with
    | Return s => s
    | Raise _ => mkStaged [] [] [] ""
    end.

Definition staged_busy_world : World :=
  Eval vm_compute in
    (stage_inputs (H := succeeds) [html_body] (Some html_header) None
       busy_world).2.

(** The staging of no body, no header and no footer. *)
Definition staged_bare : Staged :=
  Eval vm_compute in
    match (stage_inputs (H := succeeds) [] None None empty_world).1 with
    | Return s => s
    | Raise _ => mkStaged [] [] [] ""
    end.

Definition staged_bare_world : World :=
  Eval vm_compute in (stage_inputs (H := succeeds) [] None None empty_world).2.

End Cases.

Section more_runs.
Import Sample Cases.

Local Ltac decide_now :=
  match goal with
  | |- ?G => apply (@bool_decide_unpack G _); vm_compute; exact I
  end.

(** The renderer ends with 0 and leaves no output file: the method raises. *)
Lemma zero_returncode_can_raise :
  returncode (process_on vanishing staged_world) ∈ [0; 1] ∧
  (run_on vanishing empty_world).1 = Raise (OSError (pdf_report_path staged)) ∧
  ¬ ∃ content, (run_on vanishing empty_world).1 = Return content.
Proof.
  assert (Hrun : (run_on vanishing empty_world).1
                 = Raise (OSError (pdf_report_path staged)))
    by (vm_compute; reflexivity).
  split; [decide_now|]. split; [exact Hrun|].
  intros [content Hcontent]. rewrite Hrun in Hcontent. discriminate Hcontent.
Qed.


Lemma missing_output_skips_cleanup_witness :
  stage_inputs (H := vanishing) [html_body] (Some html_header) None empty_world
    = (Return staged, staged_world) ∧
  returncode (process_on vanishing staged_world) ∈ [0; 1] ∧
  files_after (process_on vanishing staged_world) !! pdf_report_path staged
    = None ∧
  (run_on vanishing empty_world).1 = Raise (OSError (pdf_report_path staged)) ∧
  unlink_attempts (calls (run_on vanishing empty_world).2) = [].
Proof.
  assert (Hs : stage_inputs (H := vanishing) [html_body] (Some html_header)
                 None empty_world = (Return staged, staged_world))
    by (vm_compute; reflexivity).
  assert (Hr : returncode (process_on vanishing staged_world) ∈ [0; 1])
    by decide_now.
  assert (Hp : files_after (process_on vanishing staged_world)
                 !! pdf_report_path staged = None)
    by (vm_compute; reflexivity).
  split; [exact Hs|]. split; [exact Hr|]. split; [exact Hp|].
  destruct (missing_output_skips_cleanup (H := vanishing)
              _ _ _ false None false _ _ _ Hs Hr Hp)
    as (Hrun & _ & _ & Hunlink).
  split; [exact Hrun|exact Hunlink].
Defined.

Lemma returning_log_witness :
  stage_inputs (H := warns) [html_body] (Some html_header) None empty_world
    = (Return staged, staged_world) ∧
  returncode (process_on warns staged_world) ∈ [0; 1] ∧
  files_after (process_on warns staged_world) !! pdf_report_path staged
    = Some pdf_bytes ∧
  (WARNING, "wkhtmltopdf: b'Warning: blocked'")
    ∈ syslog (run_on warns empty_world).2 ∧
  (INFO, "[[ Wkhtmltopdf ]] out: b'Done'")
    ∈ syslog (run_on warns empty_world).2.
Proof.
  assert (Hs : stage_inputs (H := warns) [html_body] (Some html_header)
                 None empty_world = (Return staged, staged_world))
    by (vm_compute; reflexivity).
  assert (Hr : returncode (process_on warns staged_world) ∈ [0; 1])
    by decide_now.
  assert (Hp : files_after (process_on warns staged_world)
                 !! pdf_report_path staged = Some pdf_bytes)
    by (vm_compute; reflexivity).
  split; [exact Hs|]. split; [exact Hr|]. split; [exact Hp|].
  destruct (returning_log (H := warns)
              _ _ _ false None false _ _ _ _ Hs Hr Hp)
    as (attempts & _ & _ & Hlog).
  change (run_on warns empty_world)
    with (_run_wkhtmltopdf (H := warns) [html_body] (Some html_header) None
            false None false empty_world).
  rewrite Hlog, !elem_of_app. split.
  - do 5 right. left. vm_compute. by left.
  - do 2 right. left. vm_compute. right. by left.
Defined.

Lemma fatal_log_witness :
  stage_inputs (H := fails) [html_body] (Some html_header) None empty_world
    = (Return staged, staged_world) ∧
  (returncode (process_on fails staged_world) ∉ [0; 1]) ∧
  (∃ records,
     syslog (run_on fails empty_world).2 = records ∧
     Forall (λ record, record.1 = INFO) records ∧
     length records = 3%nat).
Proof.
  assert (Hs : stage_inputs (H := fails) [html_body] (Some html_header) None
                 empty_world = (Return staged, staged_world))
    by (vm_compute; reflexivity).
  assert (Hr : returncode (process_on fails staged_world) ∉ [0; 1])
    by decide_now.
  split; [exact Hs|]. split; [exact Hr|].
  exact (fatal_log (H := fails) _ _ _ false None false _ _ _ Hs Hr).
Defined.

Lemma staging_keeps_existing_files_witness :
  stage_inputs (H := succeeds) [html_body] (Some html_header) None busy_world
    = (Return staged_busy, staged_busy_world) ∧
  is_Some (files busy_world !! "/etc/hosts") ∧
  files staged_busy_world !! "/etc/hosts" = files busy_world !! "/etc/hosts" ∧
  files staged_busy_world !! pdf_report_path staged_busy = Some [].
Proof.
  assert (Hs : stage_inputs (H := succeeds) [html_body] (Some html_header)
                 None busy_world = (Return staged_busy, staged_busy_world))
    by (vm_compute; reflexivity).
  assert (Hf : is_Some (files busy_world !! "/etc/hosts"))
    by (eexists; vm_compute; reflexivity).
  split; [exact Hs|]. split; [exact Hf|].
  destruct (staging_keeps_existing_files (H := succeeds) _ _ _ _ _ _ Hs)
    as (Hkeep & _ & Hpdf & _).
  split; [exact (proj2 (Hkeep _ Hf))|exact Hpdf].
Defined.

Lemma temporary_files_distinct_witness :
  stage_inputs (H := succeeds) [html_body] (Some html_header) None empty_world
    = (Return staged, staged_world) ∧
  NoDup (temporary_files staged) ∧
  length (temporary_files staged) = 3%nat.
Proof.
  assert (Hs : stage_inputs (H := succeeds) [html_body] (Some html_header)
                 None empty_world = (Return staged, staged_world))
    by (vm_compute; reflexivity).
  split; [exact Hs|].
  exact (temporary_files_distinct (H := succeeds) _ _ _ _ _ _ Hs).
Defined.

Lemma clean_run_restores_disk_witness :
  stage_inputs (H := succeeds) [html_body] (Some html_header) None empty_world
    = (Return staged, staged_world) ∧
  returncode (process_on succeeds staged_world) ∈ [0; 1] ∧
  files_after (process_on succeeds staged_world)
    = <[pdf_report_path staged := pdf_bytes]> (files staged_world) ∧
  (run_on succeeds empty_world).1 = Return pdf_bytes ∧
  files (run_on succeeds empty_world).2 = files empty_world.
Proof.
  assert (Hs : stage_inputs (H := succeeds) [html_body] (Some html_header)
                 None empty_world = (Return staged, staged_world))
    by (vm_compute; reflexivity).
  assert (Hr : returncode (process_on succeeds staged_world) ∈ [0; 1])
    by decide_now.
  assert (Ha : files_after (process_on succeeds staged_world)
               = <[pdf_report_path staged := pdf_bytes]> (files staged_world))
    by (vm_compute; reflexivity).
  split; [exact Hs|]. split; [exact Hr|]. split; [exact Ha|].
  apply (clean_run_restores_disk (H := succeeds)
           _ _ _ false None false _ _ _ _ Hs Hr Ha).
  intros path _. apply not_elem_of_empty.
Defined.

Lemma renderer_started_once_witness :
  stage_inputs (H := fails) [html_body] (Some html_header) None empty_world
    = (Return staged, staged_world) ∧
  exec_calls (calls (run_on fails empty_world).2)
  = [["/usr/bin/wkhtmltopdf"; "--quiet"] ++ files_command_args staged
     ++ paths staged ++ [pdf_report_path staged]].
Proof.
  assert (Hs : stage_inputs (H := fails) [html_body] (Some html_header) None
                 empty_world = (Return staged, staged_world))
    by (vm_compute; reflexivity).
  split; [exact Hs|].
  exact (proj1 (renderer_started_once (H := fails)
                  _ _ _ false None false _ _ _ Hs)).
Defined.

Lemma no_bodies_still_renders_witness :
  stage_inputs (H := succeeds) [] None None empty_world
    = (Return staged_bare, staged_bare_world) ∧
  paths staged_bare = [] ∧
  exec_calls (calls (_run_wkhtmltopdf (H := succeeds) [] None None
                       false None false empty_world).2)
  = [["/usr/bin/wkhtmltopdf"; "--quiet"; pdf_report_path staged_bare]].
Proof.
  assert (Hs : stage_inputs (H := succeeds) [] None None empty_world
               = (Return staged_bare, staged_bare_world))
    by (vm_compute; reflexivity).
  split; [exact Hs|].
  destruct (no_bodies_still_renders (H := succeeds)
              _ _ false None false _ _ _ Hs) as (Hnone & _ & Hexec).
  split; [exact Hnone|exact Hexec].
Defined.

Lemma unlink_refused_iff_locked_or_missing_witness :
  stage_inputs (H := succeeds) [html_body] (Some html_header) None locked_world
    = (Return staged, staged_locked_world) ∧
  returncode (process_on succeeds staged_locked_world) ∈ [0; 1] ∧
  files_after (process_on succeeds staged_locked_world)
    !! pdf_report_path staged = Some pdf_bytes ∧
  (∃ attempts,
     attempts.*1 = temporary_files staged ∧
     ("/tmp/report.header.tmp.x.html", false) ∈ attempts ∧
     ((pdf_report_path staged, false) ∉ attempts)).
Proof.
  assert (Hs : stage_inputs (H := succeeds) [html_body] (Some html_header)
                 None locked_world = (Return staged, staged_locked_world))
    by (vm_compute; reflexivity).
  assert (Hr : returncode (process_on succeeds staged_locked_world) ∈ [0; 1])
    by decide_now.
  assert (Hp : files_after (process_on succeeds staged_locked_world)
                 !! pdf_report_path staged = Some pdf_bytes)
    by (vm_compute; reflexivity).
  split; [exact Hs|]. split; [exact Hr|]. split; [exact Hp|].
  destruct (unlink_refused_iff_locked_or_missing (H := succeeds)
              _ _ _ false None false _ _ _ _ Hs Hr Hp)
    as (attempts & Hpaths & _ & Hiff & _).
  exists attempts. split; [exact Hpaths|]. split.
  - apply Hiff. split; [decide_now|left; decide_now].
  - intros [_ [Hl|Hm]]%Hiff.
    + revert Hl. decide_now.
    + assert (Habs : Some pdf_bytes = None) by (rewrite <- Hp; exact Hm).
      discriminate Habs.
Defined.

End more_runs.
